(** * doc-agent: the document-to-sections pipeline

    A shallow embedding of [ollama_file_chat.py] (classes [FileProcessor] and
    [OllamaFileChat]) and of [api.py] (the extract-sections endpoint), and the
    properties of the pipeline proved about it.

    Python code that mutates objects and raises exceptions is written in a
    state-and-exception monad over a [World]: the file system, the module
    global [file_chat], and a ghost trace of the calls made to external
    collaborators.  Third-party code (langchain loaders and splitter, the
    Ollama client, [json.loads], pydantic field validation, the operating
    system) is not part of the repository: it is taken as a record of
    oracles, [Externals], and every general statement quantifies over it. *)

From Stdlib Require Import String Ascii List ZArith Lia Bool.
From stdpp Require Import base option list gmap strings.
Import ListNotations.

#[local] Set Warnings "-register-all".
#[local] Open Scope string_scope.
#[local] Open Scope Z_scope.

(** ** Python strings *)

Module Py.

(** The double quote and the line feed, by code. *)
Definition dquote : string := String (ascii_of_nat 34) EmptyString.
Definition nl : string := String (ascii_of_nat 10) EmptyString.

(** [quoted s] is [s] between double quotes. *)
Definition quoted (s : string) : string := dquote +:+ s +:+ dquote.

(** [sep.join(parts)]. *)
Fixpoint join (sep : string) (parts : list string) : string :=
  match parts with
  | [] => EmptyString
  | [p] => p
  | p :: rest => p +:+ sep +:+ join sep rest
  end.

(** [str.lower] on one character.  Only the ASCII letters are folded; the
    supported extensions are ASCII, and no other cased character lowers to a
    letter they use. *)
Definition lower_ascii (c : ascii) : ascii :=
  let n := nat_of_ascii c in
  if ((65 <=? n)%nat && (n <=? 90)%nat)%bool then ascii_of_nat (n + 32) else c.

(** [s.lower()]. *)
Fixpoint lower (s : string) : string :=
  match s with
  | EmptyString => EmptyString
  | String c r => String (lower_ascii c) (lower r)
  end.

(** [s[:n]]. *)
Definition prefix (n : nat) (s : string) : string := String.substring 0 n s.

(** [needle in s] for two strings. *)
Fixpoint contains (needle s : string) : bool :=
  String.prefix needle s
  || match s with
     | EmptyString => false
     | String _ r => contains needle r
     end.

(** Python truthiness of an [Optional[str]]: [None] and the empty string are
    falsy. *)
Definition truthy (o : option string) : bool :=
  match o with
  | None | Some EmptyString => false
  | Some _ => true
  end.

(** [split sep s]: the pieces of [s] between occurrences of the character. *)
Fixpoint split (sep : ascii) (s : string) : list string :=
  match s with
  | EmptyString => [EmptyString]
  | String c r =>
      if Ascii.eqb c sep then EmptyString :: split sep r
      else match split sep r with
           | [] => [String c EmptyString]
           | p :: ps => String c p :: ps
           end
  end.

End Py.

(** ** pathlib and os.path *)

Module Path.

(** The components of a POSIX path: empty and [.] components are dropped, as
    [PurePosixPath] does when it parses. *)
Definition parts (path : string) : list string :=
  List.filter (fun p => negb (String.eqb p EmptyString || String.eqb p "."))
              (Py.split "/" path).

(** [Path(path).name]: the final component, or the empty string. *)
Definition name (path : string) : string := List.last (parts path) EmptyString.

(** The part of [s] from its last dot on, when it has a dot. *)
Fixpoint from_last_dot (s : string) : option string :=
  match s with
  | EmptyString => None
  | String c r =>
      match from_last_dot r with
      | Some t => Some t
      | None => if Ascii.eqb c "." then Some s else None
      end
  end.

(** [Path(path).suffix]: with [i = name.rfind('.')], the text [name[i:]] when
    [0 < i < len(name) - 1], and the empty string otherwise. *)
Definition suffix (path : string) : string :=
  match name path with
  | EmptyString => EmptyString
  | String _ r =>
      match from_last_dot r with
      | Some (String _ (String _ _) as t) => t
      | _ => EmptyString
      end
  end.

(** [os.path.basename(path)]: what follows the last slash. *)
Definition basename (path : string) : string :=
  List.last (Py.split "/" path) EmptyString.

End Path.

(** ** JSON values, as [json.loads] returns them *)

Inductive json : Type :=
| JNull
| JBool (b : bool)
| JInt (n : Z)
| JFloat (literal : string)
| JString (s : string)
| JArray (items : list json)
| JObject (members : gmap string json).

(** ** Exceptions *)

(** The classes of exceptions raised by the interpreter and by libraries. *)
Inductive exn_class : Type :=
| JSONDecodeError | KeyError | TypeError | AttributeError | ValueError
| ValidationError | OSError | UnicodeDecodeError | LibraryError.

(** A library exception: its class and what it carries. *)
Definition lib_exn : Type := exn_class * string.

Inductive exn : Type :=
| HTTPException (status_code : Z) (detail : json)
| Exception (msg : string)
| Builtin (cls : exn_class) (args : string).

Definition of_lib (e : lib_exn) : exn := Builtin e.1 e.2.

Inductive outcome (A : Type) : Type :=
| Return (a : A)
| Raise (e : exn).
Arguments Return {A} a.
Arguments Raise {A} e.

(** ** The world *)

(** [langchain.schema] messages. *)
Inductive message : Type :=
| SystemMessage (content : string)
| HumanMessage (content : string).

(** The values of [FileProcessor.supported_extensions]: its four loader
    methods [_load_text_file], [_load_markdown_file], [_load_pdf_file] and
    [_load_word_file], by name. *)
Inductive loader : Type :=
| TextFile | MarkdownFile | PdfFile | WordFile.

(** Calls into the operating system that can fail on their own.  [SysStat]
    is a call of [os.stat] by the program itself, [SysExists] the call of
    [os.stat] that [os.path.exists] makes: they happen at different moments
    of a run, and the status of a path can change in between. *)
Inductive syscall : Type :=
| SysOpen (path : string)
| SysStat (path : string)
| SysExists (path : string)
| SysCreate (path : string)
| SysWrite (path : string)
| SysUnlink (path : string).

(** Ghost events: the calls that leave the repository's own code. *)
Inductive event : Type :=
| Dispatched (l : loader) (path : string)
| Invoked (messages : list message).

(** The state of an [OllamaFileChat] object. *)
Record Session : Type := mkSession {
  current_file_content : option string;
  current_file_path : option string;
}.

Record World : Type := mkWorld {
  (** the files that exist, with their bytes *)
  fs : gmap string string;
  (** [api.file_chat], the module global *)
  file_chat : option Session;
  (** ghost: the external calls made so far, oldest first *)
  trace : list event;
  (** the endpoint's local variable of that name; it lives in the state
      because its [finally] block reads it after an exception *)
  temp_file_path : option string;
}.

Definition set_fs (f : gmap string string) (w : World) : World :=
  mkWorld f (file_chat w) (trace w) (temp_file_path w).
Definition set_file_chat (c : option Session) (w : World) : World :=
  mkWorld (fs w) c (trace w) (temp_file_path w).
Definition set_trace (t : list event) (w : World) : World :=
  mkWorld (fs w) (file_chat w) t (temp_file_path w).
Definition set_temp_file_path (p : option string) (w : World) : World :=
  mkWorld (fs w) (file_chat w) (trace w) p.

(** ** External collaborators *)

(** An uploaded file: its name and what [await file.read()] gives. *)
Record UploadFile : Type := mkUpload {
  filename : option string;
  read : lib_exn + string;
}.

Record Externals : Type := mkExternals {
  (** [str(e)] for an exception not raised by this repository *)
  py_str : exn -> string;
  (** decoding file bytes as UTF-8 and as GBK; [None] is [UnicodeDecodeError] *)
  decode_utf8 : string -> option string;
  decode_gbk : string -> option string;
  (** the langchain document loaders: path and file bytes to the
      [page_content] of each document *)
  UnstructuredMarkdownLoader : string -> string -> lib_exn + list string;
  PyPDFLoader : string -> string -> lib_exn + list string;
  UnstructuredWordDocumentLoader : string -> string -> lib_exn + list string;
  (** [RecursiveCharacterTextSplitter(chunk_size, chunk_overlap,
      length_function=len).split_text] *)
  RecursiveCharacterTextSplitter : nat -> nat -> string -> list string;
  (** building the [ChatOllama] client from the configuration, and
      [llm.invoke(messages).content] *)
  read_config : option lib_exn;
  ChatOllama : option lib_exn;
  llm_invoke : list message -> lib_exn + string;
  (** [json.loads] *)
  json_loads : string -> lib_exn + json;
  (** pydantic validation of an [int] field and of a [str] field *)
  validate_int : json -> option Z;
  validate_str : json -> option string;
  (** the operating system: which calls fail, the name [tempfile] proposes
      first for a temporary file, before its suffix, the names it proposes
      next when a name is taken, and how a size in bytes prints as KB *)
  os_fault : syscall -> option lib_exn;
  mkstemp : string;
  mkstemp_retry : list string;
  format_kb : nat -> string;
  st_mtime : string -> string;
}.

(** ** The monad *)

Definition M (A : Type) : Type := World -> outcome A * World.

Definition ret {A} (a : A) : M A := fun w => (Return a, w).
Definition raise {A} (e : exn) : M A := fun w => (Raise e, w).
Definition bind {A B} (m : M A) (k : A -> M B) : M B :=
  fun w => match m w with
           | (Return a, w') => k a w'
           | (Raise e, w') => (Raise e, w')
           end.

(** [try: m  except ... as e: h e].  The handler sees every exception and
    re-raises those its clauses do not list. *)
Definition try_except {A} (m : M A) (h : exn -> M A) : M A :=
  fun w => match m w with
           | (Return a, w') => (Return a, w')
           | (Raise e, w') => h e w'
           end.

(** [try: m  finally: c].  The outcome of [m] stands unless [c] raises. *)
Definition try_finally {A} (m : M A) (c : M unit) : M A :=
  fun w => let '(o, w') := m w in
           match c w' with
           | (Return _, w'') => (o, w'')
           | (Raise e, w'') => (Raise e, w'')
           end.

Definition get : M World := fun w => (Return w, w).
Definition modify (f : World -> World) : M unit := fun w => (Return tt, f w).
Definition record (ev : event) : M unit :=
  modify (fun w => set_trace (trace w ++ [ev]) w).

(** The result of a library call, as a computation. *)
Definition lift {A} (r : lib_exn + A) : M A :=
  match r with
  | inl e => raise (of_lib e)
  | inr a => ret a
  end.

(** A system call that may fail before it does anything. *)
Definition sys (E : Externals) (c : syscall) : M unit :=
  match os_fault E c with
  | Some e => raise (of_lib e)
  | None => ret tt
  end.

Declare Scope py_scope.
Delimit Scope py_scope with py.
Notation "x <- m ;; k" := (bind m (fun x => k))
  (at level 100, m at next level, right associativity) : py_scope.
Notation "m ;;; k" := (bind m (fun _ => k))
  (at level 100, right associativity) : py_scope.
#[local] Open Scope py_scope.

(** [str(e)]: the message of an [Exception] this code raised, and the
    interpreter's rendering of any other. *)
Definition str (E : Externals) (e : exn) : string :=
  match e with
  | Exception msg => msg
  | _ => py_str E e
  end.

(** The [except] clauses by class. *)
Definition is_HTTPException (e : exn) : bool :=
  match e with HTTPException _ _ => true | _ => false end.
Definition is_instance (c : exn_class) (e : exn) : bool :=
  match e, c with
  | Builtin JSONDecodeError _, (JSONDecodeError | ValueError) => true
  | Builtin UnicodeDecodeError _, (UnicodeDecodeError | ValueError) => true
  | Builtin ValidationError _, (ValidationError | ValueError) => true
  | Builtin KeyError _, KeyError => true
  | Builtin TypeError _, TypeError => true
  | Builtin AttributeError _, AttributeError => true
  | Builtin ValueError _, ValueError => true
  | Builtin OSError _, OSError => true
  | Builtin LibraryError _, LibraryError => true
  | _, _ => false
  end.

(** ** The file system *)

Module os.

(** [os.path.exists(path)]: it calls [os.stat] and answers [False] when
    that call raises (an [OSError] or a [ValueError], which is all [os.stat]
    raises on a string), so a file that is there is reported missing when
    its status cannot be read. *)
Definition exists_ (E : Externals) (path : string) : M bool :=
  match os_fault E (SysExists path) with
  | Some _ => ret false
  | None => w <- get ;; ret (bool_decide (is_Some (fs w !! path)))
  end.

(** [open(path).read()] as bytes. *)
Definition read_bytes (E : Externals) (path : string) : M string :=
  sys E (SysOpen path) ;;;
  w <- get ;;
  match fs w !! path with
  | Some bytes => ret bytes
  | None => raise (Builtin OSError path)
  end.

(** [os.stat(path).st_size]. *)
Definition st_size (E : Externals) (path : string) : M nat :=
  sys E (SysStat path) ;;;
  w <- get ;;
  match fs w !! path with
  | Some bytes => ret (String.length bytes)
  | None => raise (Builtin OSError path)
  end.

(** [os.unlink(path)]. *)
Definition unlink (E : Externals) (path : string) : M unit :=
  sys E (SysUnlink path) ;;;
  w <- get ;;
  match fs w !! path with
  | Some _ => modify (fun w => set_fs (delete path (fs w)) w)
  | None => raise (Builtin OSError path)
  end.

End os.

(** ** Python operations on parsed JSON *)

Module PyJson.

(** [key in v]. *)
Definition contains (key : string) (v : json) : M bool :=
  match v with
  | JObject members => ret (bool_decide (is_Some (members !! key)))
  | JArray items =>
      ret (existsb (fun x => match x with
                             | JString s => String.eqb s key
                             | _ => false
                             end) items)
  | JString s => ret (Py.contains key s)
  | _ => raise (Builtin TypeError "__contains__")
  end.

(** [v[key]] for a string key. *)
Definition getitem (v : json) (key : string) : M json :=
  match v with
  | JObject members =>
      match members !! key with
      | Some x => ret x
      | None => raise (Builtin KeyError key)
      end
  | _ => raise (Builtin TypeError "__getitem__")
  end.

(** [v.get(key, default)]. *)
Definition get_default (v : json) (key : string) (default : json) : M json :=
  match v with
  | JObject members =>
      match members !! key with
      | Some x => ret x
      | None => ret default
      end
  | _ => raise (Builtin AttributeError "get")
  end.

(** The values a [for] loop over [v] visits. *)
Definition iter (v : json) : M (list json) :=
  match v with
  | JArray items => ret items
  | JObject members => ret (JString <$> (map_to_list members).*1)
  | JString s =>
      ret ((fun c => JString (String c EmptyString)) <$> list_ascii_of_string s)
  | _ => raise (Builtin TypeError "__iter__")
  end.

End PyJson.

(** ** class FileProcessor *)

Module FileProcessor.

Definition supported_extensions : list (string * loader) :=
  [ (".txt", TextFile);
    (".md", MarkdownFile);
    (".pdf", PdfFile);
    (".docx", WordFile);
    (".doc", WordFile) ].

(** The splitter's configuration: [chunk_size=1000], [chunk_overlap=200],
    lengths counted by [len]. *)
Definition chunk_size : nat := 1000.
Definition chunk_overlap : nat := 200.

(** [ext in self.supported_extensions] and [self.supported_extensions[ext]]. *)
Fixpoint dict_get {V} (key : string) (d : list (string * V)) : option V :=
  match d with
  | [] => None
  | (k, v) :: rest => if String.eqb k key then Some v else dict_get key rest
  end.

(** A langchain loader run on a path: it reads the file itself, and the
    method joins the documents' [page_content] with line feeds. *)
Definition load_documents (E : Externals)
    (ld : string -> string -> lib_exn + list string) (file_path : string)
    : M string :=
  bytes <- os.read_bytes E file_path ;;
  documents <- lift (ld file_path bytes) ;;
  ret (Py.join Py.nl documents).

Definition _load_text_file (E : Externals) (file_path : string) : M string :=
  bytes <- os.read_bytes E file_path ;;
  match decode_utf8 E bytes with
  | Some text => ret text
  | None =>
      bytes <- os.read_bytes E file_path ;;
      match decode_gbk E bytes with
      | Some text => ret text
      | None => raise (Builtin UnicodeDecodeError file_path)
      end
  end.

Definition _load_markdown_file (E : Externals) (file_path : string) : M string :=
  try_except
    (load_documents E (UnstructuredMarkdownLoader E) file_path)
    (fun _ => _load_text_file E file_path).

Definition _load_pdf_file (E : Externals) (file_path : string) : M string :=
  try_except
    (load_documents E (PyPDFLoader E) file_path)
    (fun e => raise (Exception ("无法加载 PDF 文件: " +:+ str E e))).

Definition _load_word_file (E : Externals) (file_path : string) : M string :=
  try_except
    (load_documents E (UnstructuredWordDocumentLoader E) file_path)
    (fun e => raise (Exception ("无法加载 Word 文件: " +:+ str E e))).

(** Calling a value of the [supported_extensions] dict. *)
Definition call (E : Externals) (loader_func : loader) (file_path : string)
    : M string :=
  record (Dispatched loader_func file_path) ;;;
  match loader_func with
  | TextFile => _load_text_file E file_path
  | MarkdownFile => _load_markdown_file E file_path
  | PdfFile => _load_pdf_file E file_path
  | WordFile => _load_word_file E file_path
  end.

Definition is_supported_file (file_path : string) : bool :=
  let file_extension := Py.lower (Path.suffix file_path) in
  bool_decide (is_Some (dict_get file_extension supported_extensions)).

Definition load_file (E : Externals) (file_path : string) : M string :=
  present <- os.exists_ E file_path ;;
  if negb present then raise (Exception ("文件不存在: " +:+ file_path))
  else
    let file_extension := Py.lower (Path.suffix file_path) in
    match dict_get file_extension supported_extensions with
    | None => raise (Exception ("不支持的文件类型: " +:+ file_extension))
    | Some loader_func =>
        try_except
          (content <- call E loader_func file_path ;; ret content)
          (fun e => raise (Exception ("加载文件时出错: " +:+ str E e)))
    end.

Definition split_text (E : Externals) (text : string) : list string :=
  RecursiveCharacterTextSplitter E chunk_size chunk_overlap text.

(** The dict [get_file_info] returns, by key: 文件名, 文件大小, 文件类型,
    是否支持, 修改时间. *)
Record FileInfo : Type := mkFileInfo {
  info_name : string;
  info_size : string;
  info_type : string;
  info_supported : bool;
  info_mtime : string;
}.

Definition get_file_info (E : Externals) (file_path : string) : M FileInfo :=
  present <- os.exists_ E file_path ;;
  if negb present then raise (Exception ("文件不存在: " +:+ file_path))
  else
    size <- os.st_size E file_path ;;
    ret {| info_name := Path.basename file_path;
           info_size := format_kb E size;
           info_type := Path.suffix file_path;
           info_supported := is_supported_file file_path;
           info_mtime := st_mtime E file_path |}.

End FileProcessor.

(** ** class OllamaFileChat *)

Module OllamaFileChat.

(** The object a method is called on; calling one on [None] raises. *)
Definition self (method : string) : M Session :=
  w <- get ;;
  match file_chat w with
  | Some s => ret s
  | None => raise (Builtin AttributeError method)
  end.

Definition set_current_file_content (content : option string) : M unit :=
  modify (fun w =>
    set_file_chat
      ((fun s => mkSession content (current_file_path s)) <$> file_chat w) w).
Definition set_current_file_path (path : option string) : M unit :=
  modify (fun w =>
    set_file_chat
      ((fun s => mkSession (current_file_content s) path) <$> file_chat w) w).

Definition load_file (E : Externals) (file_path : string) : M bool :=
  _ <- self "load_file" ;;
  try_except
    (content <- FileProcessor.load_file E file_path ;;
     set_current_file_content (Some content) ;;;
     set_current_file_path (Some file_path) ;;;
     file_info <- FileProcessor.get_file_info E file_path ;;
     ret true)
    (fun _ => ret false).

(** The reply of every question-style method when no file is loaded. *)
Definition please_load_first : string := "请先加载一个文件。".

(** How an [Optional[str]] prints inside an f-string. *)
Definition fmt_optional (o : option string) : string :=
  match o with
  | Some s => s
  | None => "None"
  end.

Definition ask_system_prompt (s : Session) : string :=
  "你是一个文档分析专家。用户已经上传了一个文件，内容如下：

文件路径: " +:+ fmt_optional (current_file_path s) +:+ "

文件内容:
" +:+ Py.prefix 3000 (fmt_optional (current_file_content s)) +:+ "...

请基于这个文件的内容回答用户的问题。如果文件内容很长，你看到的可能是截断的版本。".

Definition ask_about_file (E : Externals) (question : string) : M string :=
  s <- self "ask_about_file" ;;
  if negb (Py.truthy (current_file_content s)) then ret please_load_first
  else
    try_except
      (let messages :=
         [SystemMessage (ask_system_prompt s); HumanMessage question] in
       record (Invoked messages) ;;;
       response <- lift (llm_invoke E messages) ;;
       ret response)
      (fun e => ret ("分析文件时出错: " +:+ str E e)).

Definition summarize_file (E : Externals) : M string :=
  s <- self "summarize_file" ;;
  if negb (Py.truthy (current_file_content s)) then ret please_load_first
  else
    ask_about_file E
      "请为这个文件提供一个详细的摘要，包括主要内容、关键点和结论。".

Definition analyze_file_structure (E : Externals) : M string :=
  s <- self "analyze_file_structure" ;;
  if negb (Py.truthy (current_file_content s)) then ret please_load_first
  else
    ask_about_file E
      "请分析这个文件的结构和组织方式，包括章节、段落布局等。".

Definition extract_key_points (E : Externals) : M string :=
  s <- self "extract_key_points" ;;
  if negb (Py.truthy (current_file_content s)) then ret please_load_first
  else
    ask_about_file E
      "请从这个文件中提取最重要的关键点，以列表形式呈现。".

(** The text [{"sections": []}]. *)
Definition empty_sections_json : string :=
  "{" +:+ Py.quoted "sections" +:+ ": []}".

(** The text [{"error": "文档结构提取时出错: <str(e)>"}]. *)
Definition error_json (E : Externals) (e : exn) : string :=
  "{" +:+ Py.quoted "error" +:+ ": "
  +:+ Py.quoted ("文档结构提取时出错: " +:+ str E e) +:+ "}".

Definition q := Py.quoted.

Definition sections_system_prompt : string :=
  "# 角色
你是一个顶级的 AI 文档结构化引擎。

# 任务
你的核心任务是分析用户提供的文档，将其分解为以一级标题为单位的多个部分，并以指定的 JSON 格式输出。

# 工作流程:
1. 解析文档格式和结构特征
2. 识别并定位所有一级标题
3. 提取每个标题下的文本内容块
4. 过滤移除表格和图片相关部分
5. 生成结构化JSON输出

# 输出格式
你必须返回一个**单一的 JSON 对象**。这个对象包含一个名为 `sections` 的键，其值是一个数组。数组中的每个对象代表一个章节，并包含以下三个字段：
- `index`: (Integer) 章节的序号，从 1 开始，依次递增。
- `title`: (String) 识别出的一级标题的纯文本。
- `content`: (String) 该一级标题下方、直到下一个一级标题出现之前的所有内容。这应包括段落、列表、引言以及所有二级、三级等子标题。

最终输出的 JSON 结构示例:
`{ " +:+ q "sections" +:+ ": [ { " +:+ q "index" +:+ ": 1, " +:+ q "title"
  +:+ ": " +:+ q "..." +:+ ", " +:+ q "content" +:+ ": " +:+ q "..."
  +:+ " }, { " +:+ q "index" +:+ ": 2, " +:+ q "title" +:+ ": " +:+ q "..."
  +:+ ", " +:+ q "content" +:+ ": " +:+ q "..." +:+ " } ] }`

# 规则与约束
1. **内容归属**: `content` 字段必须包含从当前一级标题开始（不包括标题本身），到下一个一级标题之前的所有文本。但是内容中有见附表，千万不要把附表加上放到内容中。
2. **标题清洗**: `title` 字段应为纯文本，去除任何 Markdown 标记（如 `# `）。
3. **起始内容处理**: 文档开头、在第一个一级标题出现之前的任何内容都应被忽略，不包含在任何章节的 `content` 中。
4. **空内容处理**: 如果一个一级标题下没有任何内容（紧接着就是下一个一级标题），`content` 字段应为空字符串 `"
  +:+ q EmptyString +:+ "`。
5. **无标题文档**: 如果整个文档中找不到任何可识别的一级标题，你必须返回一个包含空 `sections` 数组的 JSON 对象: `{ "
  +:+ q "sections" +:+ ": [] }`。
6. **纯净输出**: 你的回复必须是纯粹的 JSON 格式，不包含任何解释、注释或 Markdown 的 ```json ... ``` 代码块标记。
7. 完全排除表格和图片内容。

现在，请处理以下文档：".

Definition extract_document_sections (E : Externals) : M string :=
  s <- self "extract_document_sections" ;;
  if negb (Py.truthy (current_file_content s)) then ret empty_sections_json
  else
    try_except
      (let messages :=
         [SystemMessage sections_system_prompt;
          HumanMessage (default EmptyString (current_file_content s))] in
       record (Invoked messages) ;;;
       response <- lift (llm_invoke E messages) ;;
       ret response)
      (fun e => ret (error_json E e)).

Definition get_supported_formats : list string :=
  FileProcessor.supported_extensions.*1.

End OllamaFileChat.

(** ** api.py *)

Module Api.

Record DocumentSection : Type := mkSection {
  index : Z;
  title : string;
  content : string;
}.

Record DocumentSectionsResponse : Type := mkResponse {
  sections : list DocumentSection;
  file_name : option string;
  file_size : option string;
  processing_status : string;
}.

(** [DocumentSection(index=.., title=.., content=..)]: pydantic validates
    the three fields and raises [ValidationError] when one is refused. *)
Definition new_DocumentSection (E : Externals) (index title content : json)
    : M DocumentSection :=
  match validate_int E index, validate_str E title, validate_str E content with
  | Some i, Some t, Some c => ret (mkSection i t c)
  | _, _, _ => raise (Builtin ValidationError "DocumentSection")
  end.

(** [initialize_file_chat]: when the global is still [None], read the
    configuration ([get_env] and [float(..)], outside the [try]) and build
    the chat object, turning a failure of the constructor into a 500. *)
Definition initialize_file_chat (E : Externals) : M unit :=
  w <- get ;;
  match file_chat w with
  | Some _ => ret tt
  | None =>
      match read_config E with
      | Some e => raise (of_lib e)
      | None =>
          try_except
            (match ChatOllama E with
             | Some e => raise (of_lib e)
             | None => modify (set_file_chat (Some (mkSession None None)))
             end)
            (fun e =>
               raise (HTTPException 500
                        (JString ("初始化AI模型失败: " +:+ str E e))))
      end
  end.

(** [DocumentSection(index=section_data["index"],
    title=section_data["title"], content=section_data["content"])]. *)
Definition build_section (E : Externals) (section_data : json)
    : M DocumentSection :=
  index <- PyJson.getitem section_data "index" ;;
  title <- PyJson.getitem section_data "title" ;;
  content <- PyJson.getitem section_data "content" ;;
  new_DocumentSection E index title content.

(** The loop [for section_data in ..: sections.append(..)]. *)
Fixpoint build_sections (E : Externals) (items : list json)
    (sections : list DocumentSection) : M (list DocumentSection) :=
  match items with
  | [] => ret sections
  | section_data :: rest =>
      section <- build_section E section_data ;;
      build_sections E rest (sections ++ [section])
  end.

(** The inner [try] of the endpoint: from [json.loads(sections_json)] to the
    response, with its [except json.JSONDecodeError] clause. *)
Definition parse_sections (E : Externals) (sections_json : string)
    (filename : option string) (file_info : FileProcessor.FileInfo)
    : M DocumentSectionsResponse :=
  try_except
    (sections_data <- lift (json_loads E sections_json) ;;
     has_error <- PyJson.contains "error" sections_data ;;
     if has_error : bool then
       detail <- PyJson.getitem sections_data "error" ;;
       raise (HTTPException 500 detail)
     else
       listed <- PyJson.get_default sections_data "sections" (JArray []) ;;
       items <- PyJson.iter listed ;;
       sections <- build_sections E items [] ;;
       ret {| sections := sections;
              file_name := filename;
              file_size := Some (FileProcessor.info_size file_info);
              processing_status := "success" |})
    (fun e =>
       if is_instance JSONDecodeError e then
         raise (HTTPException 500
                  (JString ("AI响应格式错误: " +:+ str E e +:+ "。原始响应: "
                            +:+ Py.prefix 200 sections_json +:+ "...")))
       else raise e).

(** The outer [except] clauses of the endpoint: an [HTTPException] goes on
    as it is, any other exception becomes a 500. *)
Definition http_errors {A} (E : Externals) (m : M A) : M A :=
  try_except m
    (fun e =>
       if is_HTTPException e then raise e
       else raise (HTTPException 500
                     (JString ("处理文件时发生错误: " +:+ str E e)))).

(** The names [tempfile] tries for a file with that suffix, in order. *)
Definition candidates (E : Externals) (file_extension : string) : list string :=
  (fun name => name +:+ file_extension) <$> (mkstemp E :: mkstemp_retry E).

(** [tempfile]'s search for a name.  Each candidate is created exclusively:
    a name that is taken is passed over ([FileExistsError], [continue]), any
    other failure of the creation is raised, and [FileExistsError] is raised
    when no candidate is left. *)
Fixpoint mkstemp_inner (E : Externals) (names : list string) : M string :=
  match names with
  | [] => raise (Builtin OSError "No usable temporary file name found")
  | path :: rest =>
      sys E (SysCreate path) ;;;
      w <- get ;;
      match fs w !! path with
      | Some _ => mkstemp_inner E rest
      | None =>
          modify (fun w => set_fs (<[path := EmptyString]> (fs w)) w) ;;;
          ret path
      end
  end.

(** [with tempfile.NamedTemporaryFile(suffix=.., delete=False) as temp_file:
    temp_file.write(content); temp_file_path = temp_file.name].  The file is
    created under the first candidate name that is not taken, then written,
    and only then is the name stored; the result is that name. *)
Definition write_temp_file (E : Externals) (file_extension content : string)
    : M string :=
  path <- mkstemp_inner E (candidates E file_extension) ;;
  sys E (SysWrite path) ;;;
  modify (fun w => set_fs (<[path := content]> (fs w)) w) ;;;
  modify (set_temp_file_path (Some path)) ;;;
  ret path.

(** The [finally] block. *)
Definition remove_temp_file (E : Externals) : M unit :=
  w <- get ;;
  if Py.truthy (temp_file_path w) then
    let path := default EmptyString (temp_file_path w) in
    present <- os.exists_ E path ;;
    if present : bool then
      try_except (os.unlink E path)
        (fun e => if is_instance OSError e then ret tt else raise e)
    else ret tt
  else ret tt.

Definition unsupported_detail (file_extension : string)
    (supported_formats : list string) : json :=
  JString ("不支持的文件格式: " +:+ file_extension +:+ "。支持的格式: "
           +:+ Py.join ", " supported_formats).

(** The endpoint's [try] body once the upload is on disk: load the
    temporary file, ask for its sections, parse the answer. *)
Definition analyse (E : Externals) (file : UploadFile)
    (temp_file_path : string) : M DocumentSectionsResponse :=
  loaded <- OllamaFileChat.load_file E temp_file_path ;;
  if negb loaded then
    raise (HTTPException 422 (JString "无法加载文件内容"))
  else
    file_info <- FileProcessor.get_file_info E temp_file_path ;;
    sections_json <- OllamaFileChat.extract_document_sections E ;;
    parse_sections E sections_json (filename file) file_info.

Definition extract_document_sections (E : Externals) (file : UploadFile)
    : M DocumentSectionsResponse :=
  initialize_file_chat E ;;;
  let file_extension :=
    Py.lower (Path.suffix (default EmptyString (filename file))) in
  let supported_formats := OllamaFileChat.get_supported_formats in
  if negb (bool_decide (file_extension ∈ supported_formats)) then
    raise (HTTPException 400
             (unsupported_detail file_extension supported_formats))
  else
    modify (set_temp_file_path None) ;;;
    try_finally
      (http_errors E
         (content <- lift (read file) ;;
          temp_file_path <- write_temp_file E file_extension content ;;
          analyse E file temp_file_path))
      (remove_temp_file E).

End Api.

(** ** A reference instance of the external collaborators

    The general statements below hold for every [Externals].  To run the
    model on concrete inputs, this section gives one instance: a reader for
    the JSON texts used in the examples, field validators that accept
    exactly JSON integers and JSON strings, loaders that return the file's
    text as one document, and a backend and an operating system whose
    answers are parameters. *)

Module Decoder.

Definition is_space (c : ascii) : bool :=
  let n := nat_of_ascii c in
  ((n =? 32) || (n =? 10) || (n =? 13) || (n =? 9))%nat.

Definition is_digit (c : ascii) : bool :=
  let n := nat_of_ascii c in ((48 <=? n) && (n <=? 57))%nat.

Definition is_quote (c : ascii) : bool := (nat_of_ascii c =? 34)%nat.

Fixpoint skip_space (s : string) : string :=
  match s with
  | String c r => if is_space c then skip_space r else s
  | EmptyString => s
  end.

(** The character an escape letter stands for; [\u] escapes are not read. *)
Definition unescape (c : ascii) : option ascii :=
  if is_quote c then Some c
  else if Ascii.eqb c "\" then Some c
  else if Ascii.eqb c "/" then Some c
  else if Ascii.eqb c "n" then Some (ascii_of_nat 10)
  else if Ascii.eqb c "t" then Some (ascii_of_nat 9)
  else if Ascii.eqb c "r" then Some (ascii_of_nat 13)
  else if Ascii.eqb c "b" then Some (ascii_of_nat 8)
  else if Ascii.eqb c "f" then Some (ascii_of_nat 12)
  else None.

(** A string literal after its opening quote: its text and what follows the
    closing quote. *)
Fixpoint string_body (s : string) : option (string * string) :=
  match s with
  | EmptyString => None
  | String c r =>
      if is_quote c then Some (EmptyString, r)
      else if Ascii.eqb c "\" then
        match r with
        | String e r' =>
            match unescape e, string_body r' with
            | Some ch, Some (t, rest) => Some (String ch t, rest)
            | _, _ => None
            end
        | EmptyString => None
        end
      else
        match string_body r with
        | Some (t, rest) => Some (String c t, rest)
        | None => None
        end
  end.

(** The digits [s] starts with, as a number, and the rest. *)
Fixpoint digits (s : string) (acc : Z) : Z * string :=
  match s with
  | String c r =>
      if is_digit c
      then digits r (10 * acc + Z.of_nat (nat_of_ascii c - 48))
      else (acc, s)
  | EmptyString => (acc, s)
  end.

Definition is_number_char (c : ascii) : bool :=
  is_digit c || Ascii.eqb c "." || Ascii.eqb c "e" || Ascii.eqb c "E"
  || Ascii.eqb c "+" || Ascii.eqb c "-".

Fixpoint number_token (s : string) : string * string :=
  match s with
  | String c r =>
      if is_number_char c
      then let '(t, rest) := number_token r in (String c t, rest)
      else (EmptyString, s)
  | EmptyString => (EmptyString, s)
  end.

(** A number: an integer literal gives [JInt], any other number token gives
    [JFloat] with its text. *)
Definition number (s : string) : option (json * string) :=
  let '(token, rest) := number_token s in
  let '(negative, body) :=
    match token with
    | String c r => if Ascii.eqb c "-" then (true, r) else (false, token)
    | EmptyString => (false, token)
    end in
  match body with
  | EmptyString => None
  | String d _ =>
      if negb (is_digit d) then None
      else
        match digits body 0 with
        | (n, EmptyString) => Some (JInt (if negative then - n else n), rest)
        | _ => Some (JFloat token, rest)
        end
  end.

Definition keyword (word : string) (v : json) (s : string)
    : option (json * string) :=
  if String.prefix word s
  then Some (v, String.substring (String.length word)
                  (String.length s - String.length word) s)
  else None.

Fixpoint value (fuel : nat) (s : string) : option (json * string) :=
  match fuel with
  | O => None
  | S fuel =>
      match skip_space s with
      | EmptyString => None
      | String c r =>
          if Ascii.eqb c "[" then
            match skip_space r with
            | String c' r' =>
                if Ascii.eqb c' "]" then Some (JArray [], r')
                else elements fuel r []
            | EmptyString => None
            end
          else if Ascii.eqb c "{" then
            match skip_space r with
            | String c' r' =>
                if Ascii.eqb c' "}" then Some (JObject ∅, r')
                else members fuel r ∅
            | EmptyString => None
            end
          else if is_quote c then
            match string_body r with
            | Some (t, rest) => Some (JString t, rest)
            | None => None
            end
          else if Ascii.eqb c "n" then keyword "null" JNull (String c r)
          else if Ascii.eqb c "t" then keyword "true" (JBool true) (String c r)
          else if Ascii.eqb c "f" then keyword "false" (JBool false) (String c r)
          else number (String c r)
      end
  end
with elements (fuel : nat) (s : string) (acc : list json)
    : option (json * string) :=
  match fuel with
  | O => None
  | S fuel =>
      match value fuel s with
      | Some (v, rest) =>
          match skip_space rest with
          | String c r =>
              if Ascii.eqb c "," then elements fuel r (acc ++ [v])
              else if Ascii.eqb c "]" then Some (JArray (acc ++ [v]), r)
              else None
          | EmptyString => None
          end
      | None => None
      end
  end
with members (fuel : nat) (s : string) (acc : gmap string json)
    : option (json * string) :=
  match fuel with
  | O => None
  | S fuel =>
      match skip_space s with
      | String c r =>
          if is_quote c then
            match string_body r with
            | Some (key, rest) =>
                match skip_space rest with
                | String c2 r2 =>
                    if Ascii.eqb c2 ":" then
                      match value fuel r2 with
                      | Some (v, rest2) =>
                          match skip_space rest2 with
                          | String c3 r3 =>
                              if Ascii.eqb c3 ","
                              then members fuel r3 (<[key := v]> acc)
                              else if Ascii.eqb c3 "}"
                              then Some (JObject (<[key := v]> acc), r3)
                              else None
                          | EmptyString => None
                          end
                      | None => None
                      end
                    else None
                | EmptyString => None
                end
            | None => None
            end
          else None
      | EmptyString => None
      end
  end.

Definition loads (s : string) : lib_exn + json :=
  match value (2 * String.length s + 2) s with
  | Some (v, rest) =>
      match skip_space rest with
      | EmptyString => inr v
      | _ => inl (JSONDecodeError, "Extra data")
      end
  | None => inl (JSONDecodeError, "Expecting value")
  end.

End Decoder.

Module Reference.

Definition strict_int (v : json) : option Z :=
  match v with
  | JInt n => Some n
  | _ => None
  end.

Definition strict_str (v : json) : option string :=
  match v with
  | JString s => Some s
  | _ => None
  end.

Definition describe (e : exn) : string :=
  match e with
  | Exception msg => msg
  | Builtin _ args => args
  | HTTPException _ _ => "HTTPException"
  end.

Definition one_document (path bytes : string) : lib_exn + list string :=
  inr [bytes].

Definition externals (reply : list message -> lib_exn + string)
    (fault : syscall -> option lib_exn) : Externals :=
  {| py_str := describe;
     decode_utf8 := Some;
     decode_gbk := Some;
     UnstructuredMarkdownLoader := one_document;
     PyPDFLoader := one_document;
     UnstructuredWordDocumentLoader := one_document;
     RecursiveCharacterTextSplitter := fun _ _ text => [text];
     read_config := None;
     ChatOllama := None;
     llm_invoke := reply;
     json_loads := Decoder.loads;
     validate_int := strict_int;
     validate_str := strict_str;
     os_fault := fault;
     mkstemp := "/tmp/tmpk3v9x2ab";
     mkstemp_retry := ["/tmp/tmp8h2qzd1c"; "/tmp/tmpw0f5m7ye"];
     format_kb := fun _ => "0.01 KB";
     st_mtime := fun _ => "0" |}.

Definition no_fault (c : syscall) : option lib_exn := None.

(** A backend that answers every request with the same text. *)
Definition answers (text : string) (messages : list message)
    : lib_exn + string := inr text.

(** A backend that is down. *)
Definition unreachable (messages : list message) : lib_exn + string :=
  inl (LibraryError, "connection refused").

(** An operating system on which removing [path] fails. *)
Definition cannot_unlink (path : string) (c : syscall) : option lib_exn :=
  match c with
  | SysUnlink p => if String.eqb p path then Some (OSError, p) else None
  | _ => None
  end.

(** An operating system on which writing to [path] fails. *)
Definition cannot_write (path : string) (c : syscall) : option lib_exn :=
  match c with
  | SysWrite p => if String.eqb p path then Some (OSError, p) else None
  | _ => None
  end.

(** A server that has just started: no files, no client yet. *)
Definition fresh_world : World := mkWorld ∅ None [] None.

(** A chat object with nothing loaded, and one with a document loaded. *)
Definition idle_world : World :=
  mkWorld ∅ (Some (mkSession None None)) [] None.
Definition loaded_world : World :=
  mkWorld {[ "/data/notes.txt" := "# A" ]}
          (Some (mkSession (Some "# A") (Some "/data/notes.txt"))) [] None.

End Reference.

(** The model output of the round-trip example,
    [{"sections":[{"index":1,"title":"A","content":"x"},
    {"index":2,"title":"B","content":""},{"index":3,"title":"C","content":"y"}]}],
    and the value it denotes. *)
Definition section_text (index title content : string) : string :=
  "{" +:+ Py.quoted "index" +:+ ":" +:+ index +:+ ","
  +:+ Py.quoted "title" +:+ ":" +:+ Py.quoted title +:+ ","
  +:+ Py.quoted "content" +:+ ":" +:+ Py.quoted content +:+ "}".

Definition abc_output : string :=
  "{" +:+ Py.quoted "sections" +:+ ":["
  +:+ section_text "1" "A" "x" +:+ ","
  +:+ section_text "2" "B" EmptyString +:+ ","
  +:+ section_text "3" "C" "y" +:+ "]}".

Definition section_value (s : Api.DocumentSection) : json :=
  JObject (<["content" := JString (Api.content s)]>
             (<["title" := JString (Api.title s)]>
                (<["index" := JInt (Api.index s)]> ∅))).

Definition abc_sections : list Api.DocumentSection :=
  [ Api.mkSection 1 "A" "x";
    Api.mkSection 2 "B" EmptyString;
    Api.mkSection 3 "C" "y" ].

Definition abc_value : json :=
  JObject (<["sections" := JArray (section_value <$> abc_sections)]> ∅).

(** An element of the [sections] array that is well typed for a section: an
    object whose [index] is that integer and whose [title] and [content] are
    those strings. *)
Definition well_typed (item : json) (s : Api.DocumentSection) : Prop :=
  ∃ members, item = JObject members
    ∧ members !! "index" = Some (JInt (Api.index s))
    ∧ members !! "title" = Some (JString (Api.title s))
    ∧ members !! "content" = Some (JString (Api.content s)).

Definition sample_info : FileProcessor.FileInfo :=
  FileProcessor.mkFileInfo "notes.txt" "0.01 KB" ".txt" true "0".

(** The response the endpoint builds around a list of sections. *)
Definition success (sections : list Api.DocumentSection)
    (filename : option string) (file_info : FileProcessor.FileInfo)
    : Api.DocumentSectionsResponse :=
  {| Api.sections := sections;
     Api.file_name := filename;
     Api.file_size := Some (FileProcessor.info_size file_info);
     Api.processing_status := "success" |}.

(** The 500 the outer [except Exception] clause turns an exception into. *)
Definition processing_error (E : Externals) (e : exn) : exn :=
  HTTPException 500 (JString ("处理文件时发生错误: " +:+ str E e)).

(** An element of the [sections] array whose [index] the response model's
    [int] field refuses. *)
Definition bad_index (E : Externals) (item : json) : Prop :=
  ∃ members value, item = JObject members
    ∧ members !! "index" = Some value
    ∧ validate_int E value = None.

(** Example model outputs: [{"error": "model overloaded", "sections": []}]
    and [{"sections":[{"index":1,"title":"A","content":"x"},
    {"index":"two","title":"B","content":""}]}]. *)
Definition error_output : string :=
  "{" +:+ Py.quoted "error" +:+ ": " +:+ Py.quoted "model overloaded" +:+ ", "
  +:+ Py.quoted "sections" +:+ ": []}".

Definition bad_index_output : string :=
  "{" +:+ Py.quoted "sections" +:+ ":["
  +:+ section_text "1" "A" "x" +:+ ","
  +:+ section_text (Py.quoted "two") "B" EmptyString +:+ "]}".

Definition bad_index_item : json :=
  JObject (<["content" := JString EmptyString]>
             (<["title" := JString "B"]>
                (<["index" := JString "two"]> ∅))).

(** [obeys R P m]: whatever the start state, running [m] relates it to the
    end state by [R], and an exception that escapes [m] satisfies [P]. *)
Definition obeys {A} (R : World → World → Prop) (P : exn → Prop) (m : M A)
    : Prop :=
  ∀ w, R w (m w).2 ∧ ∀ e, (m w).1 = Raise e → P e.

(** Relations between a start and an end state: the files and the endpoint's
    local are the same; the chat object is the same. *)
Definition same_files (w w' : World) : Prop :=
  fs w' = fs w ∧ temp_file_path w' = temp_file_path w.
Definition same_chat (w w' : World) : Prop := file_chat w' = file_chat w.

(** Exceptions other than a 400. *)
Definition not_400 (e : exn) : Prop := ∀ detail, e ≠ HTTPException 400 detail.

(** Example worlds and uploads for the loader and the endpoint. *)
Definition csv_world : World :=
  mkWorld {[ "/data/table.csv" := "a,b" ]} None [] None.

Definition upper_case_world : World :=
  mkWorld {[ "/inbox/Report.TXT" := "# A" ]} None [] None.

Definition notes_upload : UploadFile :=
  mkUpload (Some "notes.txt") (inr "# A").

(** The wrapping [load_file] gives to whatever a loader raises. *)
Definition load_error (E : Externals) (e : exn) : exn :=
  Exception ("加载文件时出错: " +:+ str E e).

(** ** Configuration and the other routes of [api.py] *)

Module Config.

(** The process environment, and [dotenv.load_dotenv] when the package is
    installed ([None] is [ImportError]); loading changes [os.environ]. *)
Record Environ : Type := mkEnviron {
  environ : gmap string string;
  dotenv : option (gmap string string → gmap string string);
}.

(** [get_env(key, default)]: a non-empty value of the variable, or else what
    the environment holds once the dotenv file is loaded, or else the
    default. *)
Definition get_env (env : Environ) (key default_value : string)
    : string * Environ :=
  if Py.truthy (environ env !! key)
  then (default EmptyString (environ env !! key), env)
  else
    match dotenv env with
    | Some load_dotenv =>
        let loaded := load_dotenv (environ env) in
        (default default_value (loaded !! key), mkEnviron loaded (dotenv env))
    | None => (default_value, env)
    end.

End Config.

Module Routes.

(** The dict [health_check] returns. *)
Record Health : Type := mkHealth {
  status : string;
  ai_model : string;
  base_url : string;
}.

(** [GET /api/python/doc-agent/health]; [env] is the process environment at
    the moment the answer is built, after the initializer has run. *)
Definition health_check (E : Externals) (env : Config.Environ) : M Health :=
  try_except
    (Api.initialize_file_chat E ;;;
     let '(model, env1) := Config.get_env env "OLLAMA_MODEL" "llama3.1" in
     let '(url, _) :=
       Config.get_env env1 "OLLAMA_BASE_URL" "http://localhost:11434" in
     ret {| status := "healthy"; ai_model := model; base_url := url |})
    (fun e =>
       raise (HTTPException 503 (JString ("服务不可用: " +:+ str E e)))).

(** The dict the supported-formats route returns. *)
Record Formats : Type := mkFormats {
  supported_formats : list string;
  description : string;
}.

(** [GET /api/python/doc-agent/supported-formats]. *)
Definition get_supported_formats (E : Externals) : M Formats :=
  Api.initialize_file_chat E ;;;
  ret {| supported_formats := OllamaFileChat.get_supported_formats;
         description := "支持的文件扩展名列表" |}.

End Routes.

(** The world once the upload is stored under [path]. *)
Definition stored (path content : string) (w : World) : World :=
  mkWorld (<[path := content]> (fs w)) (file_chat w) (trace w) (Some path).

(** Nothing but the ghost trace differs between the two states. *)
Definition only_trace (w w' : World) : Prop :=
  fs w' = fs w ∧ file_chat w' = file_chat w
  ∧ temp_file_path w' = temp_file_path w.

(** The exceptions a client of the upload endpoint can see. *)
Definition client_error (e : exn) : Prop :=
  ∃ detail, e = HTTPException 400 detail ∨ e = HTTPException 422 detail
            ∨ e = HTTPException 500 detail.

(** Inside the endpoint's [try]: an [HTTPException] is a 422 or a 500. *)
Definition inner_error (e : exn) : Prop :=
  match e with
  | HTTPException status _ => status = 422 ∨ status = 500
  | _ => True
  end.

(** Further instances of the external collaborators: other decoders, other
    document loaders. *)
Definition with_decoders (E : Externals)
    (utf8 gbk : string → option string) : Externals :=
  mkExternals (py_str E) utf8 gbk
    (UnstructuredMarkdownLoader E) (PyPDFLoader E)
    (UnstructuredWordDocumentLoader E) (RecursiveCharacterTextSplitter E)
    (read_config E) (ChatOllama E) (llm_invoke E) (json_loads E)
    (validate_int E) (validate_str E) (os_fault E) (mkstemp E)
    (mkstemp_retry E) (format_kb E) (st_mtime E).

Definition with_loaders (E : Externals)
    (ld : string → string → lib_exn + list string) : Externals :=
  mkExternals (py_str E) (decode_utf8 E) (decode_gbk E) ld ld ld
    (RecursiveCharacterTextSplitter E)
    (read_config E) (ChatOllama E) (llm_invoke E) (json_loads E)
    (validate_int E) (validate_str E) (os_fault E) (mkstemp E)
    (mkstemp_retry E) (format_kb E) (st_mtime E).

Definition with_client (E : Externals) (client : option lib_exn) : Externals :=
  mkExternals (py_str E) (decode_utf8 E) (decode_gbk E)
    (UnstructuredMarkdownLoader E) (PyPDFLoader E)
    (UnstructuredWordDocumentLoader E) (RecursiveCharacterTextSplitter E)
    (read_config E) client (llm_invoke E) (json_loads E)
    (validate_int E) (validate_str E) (os_fault E) (mkstemp E)
    (mkstemp_retry E) (format_kb E) (st_mtime E).

(** Decoders: one that refuses everything, one that accepts pure ASCII. *)
Definition refuse (bytes : string) : option string := None.

(** A loader that cannot read its file. *)
Definition broken_loader (path bytes : string) : lib_exn + list string :=
  inl (LibraryError, "damaged file").

(** A loader that finds two pages. *)
Definition two_pages (path bytes : string) : lib_exn + list string :=
  inr ["page one"; "page two"].

(** An operating system on which the program's own calls of [os.stat] fail
    although [os.path.exists] has just found the file: its status can no
    longer be read by the time [get_file_info] asks for it. *)
Definition cannot_stat (c : syscall) : option lib_exn :=
  match c with
  | SysStat p => Some (OSError, p)
  | _ => None
  end.

(** An operating system on which [os.stat] fails whenever it is called, by
    the program or by [os.path.exists]. *)
Definition stat_always_fails (c : syscall) : option lib_exn :=
  match c with
  | SysStat p | SysExists p => Some (OSError, p)
  | _ => None
  end.

(** A server whose temporary directory already holds a file under the name
    [tempfile] proposes first for a [.txt] upload. *)
Definition taken_world : World :=
  mkWorld {[ "/tmp/tmpk3v9x2ab.txt" := "old" ]}
          (Some (mkSession None None)) [] None.

(** Worlds with one file of each kind, and nothing loaded. *)
Definition library_world : World :=
  mkWorld {[ "/data/paper.pdf" := "%PDF" ]}
          (Some (mkSession None None)) [] None.

Definition readme_world : World :=
  mkWorld {[ "/data/README.md" := "# Title" ]}
          (Some (mkSession None None)) [] None.

Definition quiet : Externals :=
  Reference.externals Reference.unreachable Reference.no_fault.

(** A document of [n] letters followed by [tail], and two worlds that hold
    two such documents under one path. *)
Fixpoint long_document (n : nat) (tail : string) : string :=
  match n with
  | O => tail
  | S n => String "a" (long_document n tail)
  end.

Definition long_world (tail : string) : World :=
  mkWorld ∅
    (Some (mkSession (Some (long_document 3000 tail)) (Some "/data/long.txt")))
    [] None.

(** The name [tempfile] proposes first for the temporary file of an upload,
    and an upload that gets as far as the analysis: the chat object exists,
    the extension is supported, the content can be read and stored under
    that name, which is free, and the file can be unlinked afterwards. *)
Definition temp_name (E : Externals) (file : UploadFile) : string :=
  mkstemp E +:+ Py.lower (Path.suffix (default EmptyString (filename file))).

Definition stored_upload (E : Externals) (file : UploadFile)
    (content : string) (w : World) : Prop :=
  is_Some (file_chat w)
  ∧ Py.lower (Path.suffix (default EmptyString (filename file)))
      ∈ OllamaFileChat.get_supported_formats
  ∧ read file = inr content
  ∧ os_fault E (SysCreate (temp_name E file)) = None
  ∧ os_fault E (SysWrite (temp_name E file)) = None
  ∧ os_fault E (SysUnlink (temp_name E file)) = None
  ∧ fs w !! temp_name E file = None.

(** What [get_file_info] reports for a file of the given bytes. *)
Definition info_of (E : Externals) (path bytes : string)
    : FileProcessor.FileInfo :=
  {| FileProcessor.info_name := Path.basename path;
     FileProcessor.info_size := format_kb E (String.length bytes);
     FileProcessor.info_type := Path.suffix path;
     FileProcessor.info_supported := FileProcessor.is_supported_file path;
     FileProcessor.info_mtime := st_mtime E path |}.

(** The request for the sections of a document, and the state once the
    document [text] of the temporary file is loaded and that request has
    been sent. *)
Definition sections_request (text : string) : list message :=
  [ SystemMessage OllamaFileChat.sections_system_prompt; HumanMessage text ].

Definition analysed (path text : string) (w1 : World) : World :=
  mkWorld (fs w1) (Some (mkSession (Some text) (Some path)))
    (trace w1 ++ [Invoked (sections_request text)]) (temp_file_path w1).

(** * Properties *)

(** ** The validator: lines 186-230 of [api.py] *)

Section Validator.

Context (E : Externals).

Lemma parse_sections_error_key raw members detail filename file_info w :
  json_loads E raw = inr (JObject members) →
  members !! "error" = Some detail →
  Api.parse_sections E raw filename file_info w
  = (Raise (HTTPException 500 detail), w).
Proof.
  intros Hloads Herr.
  unfold Api.parse_sections, try_except, bind, lift.
  rewrite Hloads. cbn. rewrite Herr. reflexivity.
Qed.

(** Building one section returns, or raises one of the interpreter's or
    pydantic's exceptions, and never a [JSONDecodeError]. *)
Lemma build_section_outcome section_data w :
  (∃ s, Api.build_section E section_data w = (Return s, w))
  ∨ (∃ c a, Api.build_section E section_data w = (Raise (Builtin c a), w)
            ∧ is_instance JSONDecodeError (Builtin c a) = false).
Proof.
  unfold Api.build_section, bind.
  destruct section_data as [| | | | |items|members]; cbn;
    try (right; eexists _, _; split; reflexivity).
  destruct (members !! "index") as [i|]; cbn;
    [|right; eexists _, _; split; reflexivity].
  destruct (members !! "title") as [t|]; cbn;
    [|right; eexists _, _; split; reflexivity].
  destruct (members !! "content") as [c|]; cbn;
    [|right; eexists _, _; split; reflexivity].
  unfold Api.new_DocumentSection.
  destruct (validate_int E i), (validate_str E t), (validate_str E c); cbn;
    first [left; eexists; reflexivity
          |right; eexists _, _; split; reflexivity].
Qed.

Lemma build_section_bad_index section_data w :
  bad_index E section_data →
  ∃ c a, Api.build_section E section_data w = (Raise (Builtin c a), w)
         ∧ is_instance JSONDecodeError (Builtin c a) = false.
Proof.
  intros (members & value & -> & Hidx & Hbad).
  unfold Api.build_section, bind. cbn. rewrite Hidx. cbn.
  destruct (members !! "title") as [t|]; cbn;
    [|eexists _, _; split; reflexivity].
  destruct (members !! "content") as [c|]; cbn;
    [|eexists _, _; split; reflexivity].
  unfold Api.new_DocumentSection. rewrite Hbad.
  eexists _, _; split; reflexivity.
Qed.

(** One bad element anywhere in the array fails the whole loop: no partial
    list of sections comes back. *)
Lemma build_sections_bad_index items bad acc w :
  bad ∈ items → bad_index E bad →
  ∃ c a, Api.build_sections E items acc w = (Raise (Builtin c a), w)
         ∧ is_instance JSONDecodeError (Builtin c a) = false.
Proof.
  intros Hin Hbad. revert acc.
  induction Hin as [bad rest|bad x rest Hin IH]; intros acc; cbn [Api.build_sections].
  - destruct (build_section_bad_index bad w Hbad) as (c & a & Hc & Hi).
    exists c, a. unfold bind. rewrite Hc. auto.
  - destruct (build_section_outcome x w) as [[s Hs]|(c & a & Hc & Hi)].
    + unfold bind. rewrite Hs. apply IH, Hbad.
    + exists c, a. unfold bind. rewrite Hc. auto.
Qed.

Section WellTyped.

Hypothesis int_accepted : ∀ n, validate_int E (JInt n) = Some n.
Hypothesis str_accepted : ∀ s, validate_str E (JString s) = Some s.

Lemma build_section_well_typed item s w :
  well_typed item s → Api.build_section E item w = (Return s, w).
Proof.
  intros (members & -> & Hi & Ht & Hc).
  unfold Api.build_section, bind. cbn. rewrite Hi, Ht, Hc. cbn.
  unfold Api.new_DocumentSection.
  rewrite int_accepted, !str_accepted. by destruct s.
Qed.

(** The loop appends the sections in the order of the array. *)
Lemma build_sections_well_typed items secs acc w :
  Forall2 well_typed items secs →
  Api.build_sections E items acc w = (Return (acc ++ secs)%list, w).
Proof.
  intros H. revert acc.
  induction H as [|item s items secs Hwt _ IH]; intros acc; cbn [Api.build_sections].
  - unfold ret. by rewrite app_nil_r.
  - unfold bind. rewrite (build_section_well_typed _ _ _ Hwt).
    rewrite IH. by rewrite <- app_assoc.
Qed.

End WellTyped.

End Validator.

Lemma section_value_well_typed s : well_typed (section_value s) s.
Proof. eexists; split; [reflexivity|]. repeat split; reflexivity. Qed.

(** C4. Whenever the parsed model output is an object with an [error] key,
    the validator raises a 500 whose detail is the reported error, whether
    or not a [sections] key is present; the rest of the object is not looked
    at, and the field validators play no part. *)
Theorem error_key_is_reported (E : Externals) raw members detail
    filename file_info w :
  json_loads E raw = inr (JObject members) →
  members !! "error" = Some detail →
  Api.parse_sections E raw filename file_info w
    = (Raise (HTTPException 500 detail), w)
  ∧ Api.http_errors E (Api.parse_sections E raw filename file_info) w
    = (Raise (HTTPException 500 detail), w).
Proof.
  intros Hloads Herr.
  pose proof (parse_sections_error_key E _ _ _ filename file_info w Hloads Herr) as H.
  split; [exact H|].
  unfold Api.http_errors, try_except. rewrite H. reflexivity.
Qed.

(** An instance: the model reports an error next to an empty [sections]
    array. *)
Lemma error_key_is_reported_witness :
  let E := Reference.externals (Reference.answers error_output) Reference.no_fault in
  Api.parse_sections E error_output None sample_info Reference.idle_world
    = (Raise (HTTPException 500 (JString "model overloaded")), Reference.idle_world)
  ∧ Api.http_errors E (Api.parse_sections E error_output None sample_info)
      Reference.idle_world
    = (Raise (HTTPException 500 (JString "model overloaded")), Reference.idle_world).
Proof.
  apply (error_key_is_reported _ error_output
           (<["error" := JString "model overloaded"]>
              (<["sections" := JArray []]> ∅))).
  - vm_compute. reflexivity.
  - reflexivity.
Defined.

(** C1, as the code has it. When the parsed model output is an object with
    neither an [error] key nor a [sections] key, the validator returns the
    success response with an empty list of sections
    ([sections_data.get("sections", [])]). When its [sections] array holds an
    element whose [index] the response model's [int] field refuses, the whole
    call fails with a 500 and no sections are returned. *)
Theorem missing_sections_or_bad_index (E : Externals) raw members
    filename file_info w :
  json_loads E raw = inr (JObject members) →
  members !! "error" = None →
  (members !! "sections" = None →
     Api.http_errors E (Api.parse_sections E raw filename file_info) w
     = (Return (success [] filename file_info), w))
  ∧ (∀ items bad,
       members !! "sections" = Some (JArray items) →
       bad ∈ items → bad_index E bad →
       ∃ e, Api.http_errors E (Api.parse_sections E raw filename file_info) w
            = (Raise (processing_error E e), w)).
Proof.
  intros Hloads Herr. split.
  - intros Hnone.
    unfold Api.http_errors, Api.parse_sections, try_except, bind, lift.
    rewrite Hloads. cbn. rewrite Herr. cbn. rewrite Hnone. reflexivity.
  - intros items bad Hsome Hin Hbad.
    destruct (build_sections_bad_index E items bad [] w Hin Hbad)
      as (c & a & Hraise & Hnot).
    exists (Builtin c a).
    unfold Api.http_errors, Api.parse_sections, try_except, bind, lift.
    rewrite Hloads. cbn. rewrite Herr. cbn. rewrite Hsome. cbn.
    rewrite Hraise, Hnot. reflexivity.
Qed.

(** Instances: the output [{}], and an output whose second section has the
    string ["two"] as its index, under validators that accept integers only. *)
Lemma missing_sections_or_bad_index_witness :
  let E := Reference.externals (Reference.answers "{}") Reference.no_fault in
  Api.http_errors E (Api.parse_sections E "{}" None sample_info) Reference.idle_world
    = (Return (success [] None sample_info), Reference.idle_world)
  ∧ ∃ e, Api.http_errors E
           (Api.parse_sections E bad_index_output None sample_info)
           Reference.idle_world
         = (Raise (processing_error E e), Reference.idle_world).
Proof.
  split.
  - apply (missing_sections_or_bad_index _ "{}" ∅); reflexivity.
  - apply (missing_sections_or_bad_index _ bad_index_output
             (<["sections" :=
                  JArray [section_value (Api.mkSection 1 "A" "x");
                          bad_index_item]]> ∅))
      with (items := [section_value (Api.mkSection 1 "A" "x"); bad_index_item])
           (bad := bad_index_item).
    + vm_compute. reflexivity.
    + reflexivity.
    + reflexivity.
    + apply list_elem_of_In. right. left. reflexivity.
    + eexists _, _. split; [reflexivity|]. split; reflexivity.
Defined.

(** C1 as stated fails: the output [{}] parses as an object with no
    [sections] key, and the validator, and the endpoint around it, return a
    success response with no sections instead of failing. *)
Lemma missing_sections_defaults_to_empty :
  let E := Reference.externals (Reference.answers "{}") Reference.no_fault in
  let upload := mkUpload (Some "notes.txt") (inr "# A") in
  json_loads E "{}" = inr (JObject ∅)
  ∧ Api.http_errors E (Api.parse_sections E "{}" (Some "notes.txt") sample_info)
      Reference.idle_world
    = (Return (success [] (Some "notes.txt") sample_info), Reference.idle_world)
  ∧ (Api.extract_document_sections E upload Reference.fresh_world).1
    = Return (success [] (Some "notes.txt") sample_info).
Proof. vm_compute. repeat split; reflexivity. Qed.

(** C2. Fed the exact output of the round-trip example, the validator
    returns the three sections [1 A x], [2 B (empty)], [3 C y] in that
    order; and for every parsed output that is well typed, an object without
    an [error] key whose [sections] array holds objects with an integer
    [index] and string [title] and [content], the sections of the response
    are those of the array, in its order and with its indices. *)
Theorem sections_pass_through (E : Externals) filename file_info w :
  (∀ n, validate_int E (JInt n) = Some n) →
  (∀ s, validate_str E (JString s) = Some s) →
  (json_loads E abc_output = inr abc_value →
     Api.parse_sections E abc_output filename file_info w
     = (Return (success [ Api.mkSection 1 "A" "x";
                          Api.mkSection 2 "B" EmptyString;
                          Api.mkSection 3 "C" "y" ] filename file_info), w))
  ∧ (∀ raw members items secs,
       json_loads E raw = inr (JObject members) →
       members !! "error" = None →
       members !! "sections" = Some (JArray items) →
       Forall2 well_typed items secs →
       Api.parse_sections E raw filename file_info w
       = (Return (success secs filename file_info), w)).
Proof.
  intros Hint Hstr.
  assert (Hgen : ∀ raw members items secs,
       json_loads E raw = inr (JObject members) →
       members !! "error" = None →
       members !! "sections" = Some (JArray items) →
       Forall2 well_typed items secs →
       Api.parse_sections E raw filename file_info w
       = (Return (success secs filename file_info), w)).
  { intros raw members items secs Hloads Herr Hsome Htyped.
    unfold Api.parse_sections, try_except, bind, lift.
    rewrite Hloads. cbn. rewrite Herr. cbn. rewrite Hsome. cbn.
    rewrite (build_sections_well_typed E Hint Hstr items secs [] w Htyped).
    reflexivity. }
  split; [|exact Hgen].
  intros Hloads.
  apply (Hgen abc_output _ (section_value <$> abc_sections) abc_sections Hloads).
  - reflexivity.
  - reflexivity.
  - repeat constructor; apply section_value_well_typed.
Qed.

(** An instance: the reference reader decodes the example output, and the
    validator returns its three sections. *)
Lemma sections_pass_through_witness :
  let E := Reference.externals (Reference.answers abc_output) Reference.no_fault in
  Api.parse_sections E abc_output (Some "notes.md") sample_info Reference.idle_world
  = (Return (success [ Api.mkSection 1 "A" "x";
                       Api.mkSection 2 "B" EmptyString;
                       Api.mkSection 3 "C" "y" ] (Some "notes.md") sample_info),
     Reference.idle_world).
Proof.
  apply (sections_pass_through
           (Reference.externals (Reference.answers abc_output) Reference.no_fault)).
  - intros n. reflexivity.
  - intros s. reflexivity.
  - vm_compute. reflexivity.
Defined.

(** ** What the operations leave unchanged, and what they raise *)

Section Obeys.

Context (R : World → World → Prop) (P : exn → Prop).
Hypothesis R_refl : ∀ w, R w w.
Hypothesis R_trans : ∀ w1 w2 w3, R w1 w2 → R w2 w3 → R w1 w3.
Hypothesis R_trace : ∀ w t, R w (set_trace t w).
Hypothesis P_builtin : ∀ c a, P (Builtin c a).
Hypothesis P_exception : ∀ msg, P (Exception msg).

Lemma obeys_ret {A} (a : A) : obeys R P (ret a).
Proof. intros w. split; [apply R_refl|discriminate]. Qed.

Lemma obeys_raise {A} e : P e → obeys R P (@raise A e).
Proof. intros He w. split; [apply R_refl|]. cbn. by intros ? [= <-]. Qed.

Lemma obeys_get : obeys R P get.
Proof. intros w. split; [apply R_refl|discriminate]. Qed.

Lemma obeys_modify f : (∀ w, R w (f w)) → obeys R P (modify f).
Proof. intros Hf w. split; [apply Hf|discriminate]. Qed.

Lemma obeys_bind {A B} (m : M A) (k : A → M B) :
  obeys R P m → (∀ a, obeys R P (k a)) → obeys R P (bind m k).
Proof.
  intros Hm Hk w. unfold bind.
  destruct (Hm w) as [HR HP]. destruct (m w) as [[a|e] w1]; cbn in *.
  - destruct (Hk a w1) as [HR' HP']. split; [eapply R_trans; eauto|exact HP'].
  - split; [exact HR|]. intros e' [= <-]. by apply HP.
Qed.

Lemma obeys_try_except {A} (m : M A) (h : exn → M A) :
  obeys R P m → (∀ e, P e → obeys R P (h e)) → obeys R P (try_except m h).
Proof.
  intros Hm Hh w. unfold try_except.
  destruct (Hm w) as [HR HP]. destruct (m w) as [[a|e] w1]; cbn in *.
  - split; [exact HR|discriminate].
  - destruct (Hh e (HP e eq_refl) w1) as [HR' HP'].
    split; [eapply R_trans; eauto|exact HP'].
Qed.

Lemma obeys_try_finally {A} (m : M A) (c : M unit) :
  obeys R P m → obeys R P c → obeys R P (try_finally m c).
Proof.
  intros Hm Hc w. unfold try_finally.
  destruct (Hm w) as [HR HP]. destruct (m w) as [o w1]; cbn in *.
  destruct (Hc w1) as [HR' HP']. destruct (c w1) as [[[]|e] w2]; cbn in *.
  - split; [eapply R_trans; eauto|exact HP].
  - split; [eapply R_trans; eauto|]. intros e' [= <-]. by apply HP'.
Qed.

Lemma obeys_lift {A} (r : lib_exn + A) : obeys R P (lift r).
Proof. destruct r; [apply obeys_raise, P_builtin|apply obeys_ret]. Qed.

Lemma obeys_sys E c : obeys R P (sys E c).
Proof.
  unfold sys. destruct (os_fault E c); [apply obeys_raise, P_builtin|apply obeys_ret].
Qed.

Lemma obeys_record ev : obeys R P (record ev).
Proof. apply obeys_modify. intros w. apply R_trace. Qed.

End Obeys.

Create HintDb obeys.
#[local] Hint Resolve obeys_ret obeys_raise obeys_get obeys_lift obeys_sys
  obeys_record obeys_modify : obeys.

(** One step of a proof of [obeys]: follow the shape of the program. *)
Ltac obeys_step :=
  match goal with
  | |- obeys _ _ (bind _ _) => apply obeys_bind; [auto| |intros ?]
  | |- obeys _ _ (try_except _ _) => apply obeys_try_except; [auto| |intros ? ?]
  | |- obeys _ _ (try_finally _ _) => apply obeys_try_finally; [auto| |]
  | |- obeys _ _ (if ?b then _ else _) => destruct b
  | |- obeys _ _ (match ?x with _ => _ end) => destruct x
  | |- obeys _ _ _ => solve [eauto with obeys]
  end.

Ltac obeys_auto := repeat obeys_step.

Section Frames.

Context (E : Externals) (R : World → World → Prop) (P : exn → Prop).
Hypothesis R_refl : ∀ w, R w w.
Hypothesis R_trans : ∀ w1 w2 w3, R w1 w2 → R w2 w3 → R w1 w3.
Hypothesis R_trace : ∀ w t, R w (set_trace t w).
Hypothesis P_builtin : ∀ c a, P (Builtin c a).
Hypothesis P_exception : ∀ msg, P (Exception msg).

Lemma obeys_exists path : obeys R P (os.exists_ E path).
Proof. unfold os.exists_. obeys_auto. Qed.

Lemma obeys_read_bytes path : obeys R P (os.read_bytes E path).
Proof. unfold os.read_bytes. obeys_auto. Qed.

Lemma obeys_st_size path : obeys R P (os.st_size E path).
Proof. unfold os.st_size. obeys_auto. Qed.

Hint Resolve obeys_exists obeys_read_bytes obeys_st_size : obeys.

Lemma obeys_load_documents ld path :
  obeys R P (FileProcessor.load_documents E ld path).
Proof. unfold FileProcessor.load_documents. obeys_auto. Qed.

Hint Resolve obeys_load_documents : obeys.

Lemma obeys_load_text_file path :
  obeys R P (FileProcessor._load_text_file E path).
Proof. unfold FileProcessor._load_text_file. obeys_auto. Qed.

Hint Resolve obeys_load_text_file : obeys.

Lemma obeys_call l path : obeys R P (FileProcessor.call E l path).
Proof.
  unfold FileProcessor.call, FileProcessor._load_markdown_file,
    FileProcessor._load_pdf_file, FileProcessor._load_word_file.
  obeys_auto.
Qed.

Hint Resolve obeys_call : obeys.

(** [FileProcessor.load_file] and [get_file_info] touch nothing but the
    ghost trace, and what they raise is an [Exception] or a library's. *)
Lemma obeys_FileProcessor_load_file path :
  obeys R P (FileProcessor.load_file E path).
Proof. unfold FileProcessor.load_file. obeys_auto. Qed.

Lemma obeys_get_file_info path :
  obeys R P (FileProcessor.get_file_info E path).
Proof. unfold FileProcessor.get_file_info. obeys_auto. Qed.

Hint Resolve obeys_FileProcessor_load_file obeys_get_file_info : obeys.

Lemma obeys_contains key v : obeys R P (PyJson.contains key v).
Proof. unfold PyJson.contains. obeys_auto. Qed.

Lemma obeys_getitem v key : obeys R P (PyJson.getitem v key).
Proof. unfold PyJson.getitem. obeys_auto. Qed.

Lemma obeys_get_default v key d : obeys R P (PyJson.get_default v key d).
Proof. unfold PyJson.get_default. obeys_auto. Qed.

Lemma obeys_iter v : obeys R P (PyJson.iter v).
Proof. unfold PyJson.iter. obeys_auto. Qed.

Hint Resolve obeys_contains obeys_getitem obeys_get_default obeys_iter : obeys.

Lemma obeys_build_section item : obeys R P (Api.build_section E item).
Proof. unfold Api.build_section, Api.new_DocumentSection. obeys_auto. Qed.

Hint Resolve obeys_build_section : obeys.

Lemma obeys_build_sections items acc :
  obeys R P (Api.build_sections E items acc).
Proof.
  revert acc. induction items as [|item items IH]; intros acc;
    cbn [Api.build_sections]; obeys_auto.
Qed.

Hint Resolve obeys_build_sections : obeys.

Hypothesis P_422 : ∀ detail, P (HTTPException 422 detail).
Hypothesis P_500 : ∀ detail, P (HTTPException 500 detail).

Lemma obeys_parse_sections raw filename file_info :
  obeys R P (Api.parse_sections E raw filename file_info).
Proof. unfold Api.parse_sections. obeys_auto. Qed.

Lemma obeys_http_errors {A} (m : M A) :
  obeys R P m → obeys R P (Api.http_errors E m).
Proof. intros Hm. unfold Api.http_errors. obeys_auto. Qed.

Hint Resolve obeys_parse_sections obeys_http_errors : obeys.

Hypothesis R_chat : ∀ w c, R w (set_file_chat c w).

Lemma obeys_self method : obeys R P (OllamaFileChat.self method).
Proof. unfold OllamaFileChat.self. obeys_auto. Qed.

Hint Resolve obeys_self : obeys.

Lemma obeys_OllamaFileChat_load_file path :
  obeys R P (OllamaFileChat.load_file E path).
Proof.
  unfold OllamaFileChat.load_file, OllamaFileChat.set_current_file_content,
    OllamaFileChat.set_current_file_path.
  obeys_auto.
Qed.

Lemma obeys_OllamaFileChat_extract :
  obeys R P (OllamaFileChat.extract_document_sections E).
Proof. unfold OllamaFileChat.extract_document_sections. obeys_auto. Qed.

Hint Resolve obeys_OllamaFileChat_load_file obeys_OllamaFileChat_extract : obeys.

Lemma obeys_initialize_file_chat : obeys R P (Api.initialize_file_chat E).
Proof. unfold Api.initialize_file_chat, of_lib. obeys_auto. Qed.

(** Once the upload is on disk, the rest of the [try] body changes the
    chat object and the trace only. *)
Lemma obeys_analyse file path : obeys R P (Api.analyse E file path).
Proof. unfold Api.analyse. obeys_auto. Qed.

Hint Resolve obeys_initialize_file_chat obeys_analyse : obeys.

Hypothesis R_fs : ∀ w f, R w (set_fs f w).
Hypothesis R_temp : ∀ w p, R w (set_temp_file_path p w).

Lemma obeys_mkstemp_inner names : obeys R P (Api.mkstemp_inner E names).
Proof.
  induction names as [|path rest IH]; cbn [Api.mkstemp_inner]; obeys_auto.
Qed.

Hint Resolve obeys_mkstemp_inner : obeys.

Lemma obeys_write_temp_file ext content :
  obeys R P (Api.write_temp_file E ext content).
Proof. unfold Api.write_temp_file. obeys_auto. Qed.

Lemma obeys_remove_temp_file : obeys R P (Api.remove_temp_file E).
Proof. unfold Api.remove_temp_file, os.unlink. obeys_auto. Qed.

Hint Resolve obeys_write_temp_file obeys_remove_temp_file : obeys.

(** Past the extension check, the endpoint raises nothing but what its
    parts raise. *)
Lemma obeys_endpoint file :
  Py.lower (Path.suffix (default EmptyString (filename file)))
    ∈ OllamaFileChat.get_supported_formats →
  obeys R P (Api.extract_document_sections E file).
Proof.
  intros Hin. unfold Api.extract_document_sections.
  rewrite (bool_decide_eq_true_2 _ Hin). cbn [negb].
  obeys_auto. apply obeys_http_errors. obeys_auto.
Qed.

End Frames.

(** ** The session: [OllamaFileChat] *)

(** C3, as the code has it. With no document loaded (the content is [None]
    or empty), [ask_about_file], [summarize_file], [analyze_file_structure]
    and [extract_key_points] return the fixed reply asking to load a file
    first, and [extract_document_sections] returns the text
    [{"sections": []}]; none of them raises, calls the backend or changes
    the state. *)
Theorem no_document_replies (E : Externals) question w s :
  file_chat w = Some s →
  Py.truthy (current_file_content s) = false →
  OllamaFileChat.ask_about_file E question w
    = (Return OllamaFileChat.please_load_first, w)
  ∧ OllamaFileChat.summarize_file E w
    = (Return OllamaFileChat.please_load_first, w)
  ∧ OllamaFileChat.analyze_file_structure E w
    = (Return OllamaFileChat.please_load_first, w)
  ∧ OllamaFileChat.extract_key_points E w
    = (Return OllamaFileChat.please_load_first, w)
  ∧ OllamaFileChat.extract_document_sections E w
    = (Return OllamaFileChat.empty_sections_json, w).
Proof.
  intros Hchat Hnone.
  unfold OllamaFileChat.ask_about_file, OllamaFileChat.summarize_file,
    OllamaFileChat.analyze_file_structure, OllamaFileChat.extract_key_points,
    OllamaFileChat.extract_document_sections, OllamaFileChat.self, bind, get, ret.
  cbn beta iota. rewrite Hchat. cbn beta iota. rewrite Hnone.
  repeat split; reflexivity.
Qed.

(** An instance: a chat object that has loaded nothing. *)
Lemma no_document_replies_witness :
  let E := Reference.externals Reference.unreachable Reference.no_fault in
  let w := Reference.idle_world in
  OllamaFileChat.ask_about_file E "What is this about?" w
    = (Return OllamaFileChat.please_load_first, w)
  ∧ OllamaFileChat.summarize_file E w
    = (Return OllamaFileChat.please_load_first, w)
  ∧ OllamaFileChat.analyze_file_structure E w
    = (Return OllamaFileChat.please_load_first, w)
  ∧ OllamaFileChat.extract_key_points E w
    = (Return OllamaFileChat.please_load_first, w)
  ∧ OllamaFileChat.extract_document_sections E w
    = (Return OllamaFileChat.empty_sections_json, w).
Proof.
  apply (no_document_replies _ _ Reference.idle_world (mkSession None None));
    reflexivity.
Defined.

(** C3 as stated fails for [extract_document_sections]: with no document
    loaded it answers with the JSON text of an empty section list, which is
    not the reply of the other four operations. *)
Lemma extract_sections_has_its_own_reply :
  let E := Reference.externals Reference.unreachable Reference.no_fault in
  OllamaFileChat.extract_document_sections E Reference.idle_world
    = (Return OllamaFileChat.empty_sections_json, Reference.idle_world)
  ∧ OllamaFileChat.empty_sections_json ≠ OllamaFileChat.please_load_first.
Proof. split; [reflexivity|]. intros H. vm_compute in H. discriminate H. Qed.

(** C5, as the code has it. With a document loaded,
    [extract_document_sections] sends exactly one request to the backend,
    the system prompt and the whole document, and sends no other. When the
    backend answers, its text is returned; when the backend fails, the
    failure is caught and returned as the text
    [{"error": "文档结构提取时出错: ..."}], not raised. *)
Theorem one_request_per_extraction (E : Externals) w s document :
  file_chat w = Some s →
  current_file_content s = Some document →
  document ≠ EmptyString →
  let messages := [ SystemMessage OllamaFileChat.sections_system_prompt;
                    HumanMessage document ] in
  OllamaFileChat.extract_document_sections E w
  = (Return match llm_invoke E messages with
            | inr text => text
            | inl e => OllamaFileChat.error_json E (of_lib e)
            end,
     set_trace (trace w ++ [Invoked messages]) w).
Proof.
  intros Hchat Hdoc Hne messages.
  unfold OllamaFileChat.extract_document_sections, OllamaFileChat.self,
    bind, get, ret, try_except, record, modify.
  cbn beta iota. rewrite Hchat. cbn beta iota. rewrite Hdoc.
  destruct document as [|c rest]; [done|].
  cbn [Py.truthy negb default from_option id]. cbn beta iota. fold messages.
  destruct (llm_invoke E messages); reflexivity.
Qed.

(** An instance: one document loaded, one request in the trace. *)
Lemma one_request_per_extraction_witness :
  let E := Reference.externals (Reference.answers abc_output) Reference.no_fault in
  let messages := [ SystemMessage OllamaFileChat.sections_system_prompt;
                    HumanMessage "# A" ] in
  OllamaFileChat.extract_document_sections E Reference.loaded_world
  = (Return abc_output, set_trace [Invoked messages] Reference.loaded_world).
Proof.
  apply (one_request_per_extraction
           (Reference.externals (Reference.answers abc_output) Reference.no_fault)
           Reference.loaded_world
           (mkSession (Some "# A") (Some "/data/notes.txt")) "# A");
    [reflexivity|reflexivity|discriminate].
Defined.

(** C5 as stated fails: when the backend is down, the call does not raise;
    it returns an error-keyed JSON text as its ordinary result. *)
Lemma backend_failure_is_returned :
  let E := Reference.externals Reference.unreachable Reference.no_fault in
  llm_invoke E [ SystemMessage OllamaFileChat.sections_system_prompt;
                 HumanMessage "# A" ]
    = inl (LibraryError, "connection refused")
  ∧ (OllamaFileChat.extract_document_sections E Reference.loaded_world).1
    = Return ("{" +:+ Py.quoted "error" +:+ ": "
              +:+ Py.quoted "文档结构提取时出错: connection refused" +:+ "}").
Proof. split; reflexivity. Qed.

(** C9. When [FileProcessor.load_file] raises, [OllamaFileChat.load_file]
    returns [False] and the chat object is as it was: the loaded content and
    path keep their values. *)
Theorem failed_load_keeps_document (E : Externals) file_path w s e w1 :
  file_chat w = Some s →
  FileProcessor.load_file E file_path w = (Raise e, w1) →
  ∃ w', OllamaFileChat.load_file E file_path w = (Return false, w')
        ∧ file_chat w' = Some s.
Proof.
  intros Hchat Hload.
  exists w1. split.
  - unfold OllamaFileChat.load_file, OllamaFileChat.self, bind, get, ret,
      try_except.
    cbn beta iota. rewrite Hchat. cbn beta iota. rewrite Hload. reflexivity.
  - rewrite <- Hchat.
    assert (H : obeys same_chat (λ _, True) (FileProcessor.load_file E file_path)).
    { apply obeys_FileProcessor_load_file; unfold same_chat; try done; congruence. }
    destruct (H w) as [Hsame _]. rewrite Hload in Hsame. exact Hsame.
Qed.

(** An instance: loading a missing file after a document was loaded. *)
Lemma failed_load_keeps_document_witness :
  let E := Reference.externals Reference.unreachable Reference.no_fault in
  ∃ w', OllamaFileChat.load_file E "/data/missing.pdf" Reference.loaded_world
        = (Return false, w')
        ∧ file_chat w'
          = Some (mkSession (Some "# A") (Some "/data/notes.txt")).
Proof.
  eapply (failed_load_keeps_document
            (Reference.externals Reference.unreachable Reference.no_fault)
            "/data/missing.pdf" Reference.loaded_world).
  - reflexivity.
  - reflexivity.
Defined.

(** ** The format loader: [FileProcessor] *)

Lemma dict_get_unsupported ext :
  ext ∉ [".txt"; ".md"; ".pdf"; ".docx"; ".doc"] →
  FileProcessor.dict_get ext FileProcessor.supported_extensions = None.
Proof.
  intros Hnot.
  unfold FileProcessor.supported_extensions. cbn [FileProcessor.dict_get].
  repeat match goal with
         | |- context [String.eqb ?k ext] =>
             destruct (String.eqb_spec k ext) as [<-|_];
             [exfalso; apply Hnot; set_solver|]
         end.
  reflexivity.
Qed.

Lemma dict_get_supported ext loader_func :
  FileProcessor.dict_get ext FileProcessor.supported_extensions
    = Some loader_func →
  Py.lower ext = ext ∧ ext ∈ OllamaFileChat.get_supported_formats.
Proof.
  unfold FileProcessor.supported_extensions. cbn [FileProcessor.dict_get].
  repeat match goal with
         | |- context [String.eqb ?k ext] =>
             destruct (String.eqb_spec k ext) as [<-|_];
             [intros _; split; [reflexivity|vm_compute; set_solver]|]
         end.
  discriminate.
Qed.

(** What [os.path.exists] answers: whether the file is there when the
    status of the path can be read, and [False] when it cannot. *)
Lemma exists_seen E path w :
  os_fault E (SysExists path) = None →
  os.exists_ E path w = (Return (bool_decide (is_Some (fs w !! path))), w).
Proof. intros Hstat. unfold os.exists_. rewrite Hstat. reflexivity. Qed.

Lemma exists_unseen E path failure w :
  os_fault E (SysExists path) = Some failure →
  os.exists_ E path w = (Return false, w).
Proof. intros Hstat. unfold os.exists_. rewrite Hstat. reflexivity. Qed.

Lemma exists_absent E path w :
  fs w !! path = None → os.exists_ E path w = (Return false, w).
Proof.
  intros Hnone. unfold os.exists_, bind, get, ret.
  destruct (os_fault E (SysExists path)); [reflexivity|].
  rewrite Hnone. reflexivity.
Qed.

Lemma exists_returns E path w :
  ∃ present, os.exists_ E path w = (Return present, w).
Proof.
  unfold os.exists_, bind, get, ret.
  destruct (os_fault E (SysExists path)); eexists; reflexivity.
Qed.

Lemma exists_present E path w :
  os_fault E (SysExists path) = None → is_Some (fs w !! path) →
  os.exists_ E path w = (Return true, w).
Proof.
  intros Hstat Hsome. rewrite (exists_seen _ _ _ Hstat).
  by rewrite (bool_decide_eq_true_2 _ Hsome).
Qed.

(** C6. [load_file] on a path that does not exist raises the "file does not
    exist" exception, and on an existing path whose lower-cased extension is
    none of [.txt], [.md], [.pdf], [.docx], [.doc] it raises the
    "unsupported file type" exception; in both cases the state, and with it
    the trace of loader calls, is untouched: no loader has been called.
    Existence is what [os.path.exists] answers: a file whose status cannot
    be read counts as missing, whatever its extension. *)
Theorem load_file_checks_first (E : Externals) file_path w :
  (fs w !! file_path = None →
     FileProcessor.load_file E file_path w
     = (Raise (Exception ("文件不存在: " +:+ file_path)), w))
  ∧ (is_Some (fs w !! file_path) →
     os_fault E (SysExists file_path) = None →
     Py.lower (Path.suffix file_path) ∉ [".txt"; ".md"; ".pdf"; ".docx"; ".doc"] →
     FileProcessor.load_file E file_path w
     = (Raise (Exception ("不支持的文件类型: "
                          +:+ Py.lower (Path.suffix file_path))), w))
  ∧ (is_Some (os_fault E (SysExists file_path)) →
     FileProcessor.load_file E file_path w
     = (Raise (Exception ("文件不存在: " +:+ file_path)), w)).
Proof.
  unfold FileProcessor.load_file, bind.
  split; [|split].
  - intros Hnone. rewrite (exists_absent _ _ _ Hnone). reflexivity.
  - intros Hsome Hstat Hnot.
    rewrite (exists_present _ _ _ Hstat Hsome). cbn [negb].
    rewrite (dict_get_unsupported _ Hnot). reflexivity.
  - intros [failure Hstat]. rewrite (exists_unseen _ _ _ _ Hstat). reflexivity.
Qed.

(** Instances: a missing [.txt] file and an existing [.csv] file. *)
Lemma load_file_checks_first_witness :
  let E := Reference.externals Reference.unreachable Reference.no_fault in
  FileProcessor.load_file E "/data/missing.txt" csv_world
    = (Raise (Exception "文件不存在: /data/missing.txt"), csv_world)
  ∧ FileProcessor.load_file E "/data/table.csv" csv_world
    = (Raise (Exception "不支持的文件类型: .csv"), csv_world).
Proof.
  split.
  - apply (proj1 (load_file_checks_first
                    (Reference.externals Reference.unreachable Reference.no_fault)
                    "/data/missing.txt" csv_world)).
    reflexivity.
  - apply (proj1 (proj2 (load_file_checks_first
                           (Reference.externals Reference.unreachable
                              Reference.no_fault)
                           "/data/table.csv" csv_world))).
    + eexists. reflexivity.
    + reflexivity.
    + change (Py.lower (Path.suffix "/data/table.csv")) with ".csv".
      rewrite !elem_of_cons, elem_of_nil.
      intros [H|[H|[H|[H|[H|[]]]]]]; discriminate H.
Defined.

(** C10. A path whose suffix equals a supported extension up to letter case
    is supported: [is_supported_file] accepts it, [load_file] calls the
    loader registered for the lower-case extension when [os.path.exists]
    finds the file, and the upload endpoint does not answer 400. *)
Theorem extension_case_is_ignored (E : Externals) file_path ext loader_func :
  FileProcessor.dict_get ext FileProcessor.supported_extensions
    = Some loader_func →
  Py.lower (Path.suffix file_path) = Py.lower ext →
  FileProcessor.is_supported_file file_path = true
  ∧ (∀ w, is_Some (fs w !! file_path) →
       os_fault E (SysExists file_path) = None →
       FileProcessor.load_file E file_path w
       = try_except
           (content <- FileProcessor.call E loader_func file_path ;;
            ret content)
           (fun e => raise (load_error E e)) w)
  ∧ (∀ file w detail,
       filename file = Some file_path →
       (Api.extract_document_sections E file w).1
       ≠ Raise (HTTPException 400 detail)).
Proof.
  intros Hget Hcase.
  destruct (dict_get_supported _ _ Hget) as [Hlower Hin].
  rewrite Hlower in Hcase.
  split; [|split].
  - unfold FileProcessor.is_supported_file. rewrite Hcase, Hget. reflexivity.
  - intros w Hsome Hstat.
    unfold FileProcessor.load_file at 1. unfold bind at 1.
    rewrite (exists_present _ _ _ Hstat Hsome). cbn [negb].
    rewrite Hcase, Hget. reflexivity.
  - intros file w detail Hname Hraise.
    assert (H : obeys (λ _ _, True) not_400 (Api.extract_document_sections E file)).
    { apply obeys_endpoint; try done.
      by rewrite Hname; cbn [default from_option id]; rewrite Hcase. }
    destruct (H w) as [_ Hnot]. exact (Hnot _ Hraise detail eq_refl).
Qed.

(** An instance: [Report.TXT] goes to the text loader. *)
Lemma extension_case_is_ignored_witness :
  let E := Reference.externals (Reference.answers abc_output) Reference.no_fault in
  FileProcessor.is_supported_file "/inbox/Report.TXT" = true
  ∧ (FileProcessor.load_file E "/inbox/Report.TXT" upper_case_world
     = (Return "# A",
        set_trace [Dispatched TextFile "/inbox/Report.TXT"] upper_case_world))
  ∧ (∀ detail,
       (Api.extract_document_sections E
          (mkUpload (Some "/inbox/Report.TXT") (inr "# A"))
          Reference.fresh_world).1
       ≠ Raise (HTTPException 400 detail)).
Proof.
  pose proof (extension_case_is_ignored
                (Reference.externals (Reference.answers abc_output)
                   Reference.no_fault)
                "/inbox/Report.TXT" ".txt" TextFile eq_refl eq_refl)
    as (Hsup & Hload & Hup).
  split; [exact Hsup|split].
  - rewrite Hload; [reflexivity|eexists; reflexivity|reflexivity].
  - intros detail. apply Hup. reflexivity.
Defined.

(** ** The endpoint's temporary file *)

Lemma same_files_refl w : same_files w w.
Proof. by split. Qed.

Lemma same_files_trans w1 w2 w3 :
  same_files w1 w2 → same_files w2 w3 → same_files w1 w3.
Proof. intros [H1 H2] [H3 H4]. split; congruence. Qed.

Ltac same_files_side :=
  first [ exact same_files_refl
        | exact same_files_trans
        | intros; exact I
        | intros; split; reflexivity ].

(** The outer [except] clauses change what is raised, not the state. *)
Lemma http_errors_state {A} E (m : M A) w :
  (Api.http_errors E m w).2 = (m w).2.
Proof.
  unfold Api.http_errors, try_except.
  destruct (m w) as [[a|e] w1]; [reflexivity|].
  by destruct (is_HTTPException e).
Qed.

(** After [try: m finally: c] the state is the one [c] leaves. *)
Lemma try_finally_state {A} (m : M A) (c : M unit) w :
  (try_finally m c w).2 = (c (m w).2).2.
Proof.
  unfold try_finally. destruct (m w) as [o w1]. cbn [snd].
  by destruct (c w1) as [[[]|e] w2].
Qed.

(** The search for a name either raises with nothing created, or creates an
    empty file under a candidate name that was free. *)
Lemma mkstemp_inner_cases E names w :
  (∃ e, Api.mkstemp_inner E names w = (Raise e, w))
  ∨ (∃ path, path ∈ names ∧ fs w !! path = None
       ∧ Api.mkstemp_inner E names w
         = (Return path, set_fs (<[path := EmptyString]> (fs w)) w)).
Proof.
  induction names as [|path rest IH]; cbn [Api.mkstemp_inner].
  { left. eexists. reflexivity. }
  unfold bind, sys, get, modify, raise, ret.
  destruct (os_fault E (SysCreate path)) as [e|]; cbn beta iota.
  { left. eexists. reflexivity. }
  destruct (fs w !! path) as [old|] eqn:Hold.
  - destruct IH as [[e He]|(p & Hin & Hfree & Hp)].
    + left. eexists. exact He.
    + right. exists p. split; [by apply list_elem_of_further|]. by split.
  - right. exists path. split; [apply list_elem_of_here|]. by split.
Qed.

(** Writing the upload to disk, when the write itself does not fail, either
    raises with nothing stored and the variable [temp_file_path] left alone,
    or creates the file under a candidate name that was free, fills it, and
    stores the name. *)
Lemma write_temp_file_cases E ext content w :
  (∀ path, path ∈ Api.candidates E ext → os_fault E (SysWrite path) = None) →
  (∃ e, Api.write_temp_file E ext content w = (Raise e, w))
  ∨ (∃ path, path ∈ Api.candidates E ext ∧ fs w !! path = None
       ∧ Api.write_temp_file E ext content w
         = (Return path, stored path content w)).
Proof.
  intros Hwrite. unfold Api.write_temp_file.
  destruct (mkstemp_inner_cases E (Api.candidates E ext) w)
    as [[e He]|(path & Hin & Hfree & Hpath)].
  - left. exists e. unfold bind at 1. rewrite He. reflexivity.
  - right. exists path. split; [exact Hin|]. split; [exact Hfree|].
    unfold bind at 1. rewrite Hpath. cbn beta iota.
    unfold bind, sys, modify. rewrite (Hwrite _ Hin).
    unfold ret, stored, set_temp_file_path, set_fs. cbn.
    by rewrite insert_insert_eq.
Qed.

Lemma remove_temp_file_none E w :
  temp_file_path w = None → Api.remove_temp_file E w = (Return tt, w).
Proof.
  intros Hnone. unfold Api.remove_temp_file, bind, get, ret. cbn beta iota.
  rewrite Hnone. reflexivity.
Qed.

Lemma remove_temp_file_some E w path bytes :
  temp_file_path w = Some path →
  path ≠ EmptyString →
  fs w !! path = Some bytes →
  os_fault E (SysExists path) = None →
  os_fault E (SysUnlink path) = None →
  Api.remove_temp_file E w = (Return tt, set_fs (delete path (fs w)) w).
Proof.
  intros Htemp Hne Hfile Hstat Hunlink.
  unfold Api.remove_temp_file. unfold bind at 1, get at 1. cbn beta iota.
  rewrite Htemp. destruct path as [|c rest]; [done|].
  cbn [Py.truthy default from_option id]. unfold bind at 1.
  rewrite (exists_present E _ w Hstat) by (rewrite Hfile; by eexists).
  unfold os.unlink, try_except, bind, get, ret, sys, modify. cbn beta iota.
  rewrite Hunlink. unfold ret. cbn beta iota. rewrite Hfile. reflexivity.
Qed.

(** When [os.path.exists] cannot read the status of the stored path, the
    [finally] block does nothing. *)
Lemma remove_temp_file_unseen E w path failure :
  temp_file_path w = Some path →
  os_fault E (SysExists path) = Some failure →
  Api.remove_temp_file E w = (Return tt, w).
Proof.
  intros Htemp Hstat.
  unfold Api.remove_temp_file. unfold bind at 1, get at 1. cbn beta iota.
  rewrite Htemp. destruct path as [|c rest]; [reflexivity|].
  cbn [Py.truthy default from_option id]. unfold bind at 1.
  rewrite (exists_unseen E _ _ w Hstat). reflexivity.
Qed.

Lemma temp_name_not_empty stem ext :
  ext ∈ OllamaFileChat.get_supported_formats → stem +:+ ext ≠ EmptyString.
Proof.
  intros Hin Hempty.
  assert (ext = EmptyString) as ->.
  { destruct stem; [exact Hempty|discriminate Hempty]. }
  vm_compute in Hin.
  repeat (apply elem_of_cons in Hin as [Hin|Hin]; [discriminate Hin|]).
  by apply elem_of_nil in Hin.
Qed.

Lemma candidate_not_empty E ext path :
  ext ∈ OllamaFileChat.get_supported_formats →
  path ∈ Api.candidates E ext → path ≠ EmptyString.
Proof.
  intros Hext Hin. unfold Api.candidates in Hin.
  apply list_elem_of_fmap in Hin as (stem & -> & _).
  by apply temp_name_not_empty.
Qed.

(** C8, as the code has it. On every exit path of the endpoint, whether the
    upload is rejected, cannot be read or stored, cannot be loaded, the
    backend fails, its output is error-keyed or malformed, or the response
    is built, the endpoint leaves the file system as it found it: the
    temporary file it created is gone when it returns.  This holds provided
    that, on the names the temporary file can get, writing the upload does
    not fail, [os.path.exists] can read the status of the file (so that the
    [finally] block does not skip the removal), and [os.unlink] does not
    fail. *)
Theorem temp_file_is_removed (E : Externals) file w :
  let names :=
    Api.candidates E
      (Py.lower (Path.suffix (default EmptyString (filename file)))) in
  (∀ path, path ∈ names → os_fault E (SysWrite path) = None) →
  (∀ path, path ∈ names → os_fault E (SysExists path) = None) →
  (∀ path, path ∈ names → os_fault E (SysUnlink path) = None) →
  fs (Api.extract_document_sections E file w).2 = fs w
  ∧ (∀ path, path ∈ names → fs w !! path = None →
       fs (Api.extract_document_sections E file w).2 !! path = None).
Proof.
  intros names Hwrite Hstat Hunlink.
  assert (Hfs : fs (Api.extract_document_sections E file w).2 = fs w);
    [|split; [exact Hfs|intros path _ Hfree; rewrite Hfs; exact Hfree]].
  unfold Api.extract_document_sections.
  set (ext := Py.lower (Path.suffix (default EmptyString (filename file)))) in *.
  unfold bind at 1.
  assert (Hinit : obeys same_files (λ _, True) (Api.initialize_file_chat E)).
  { apply obeys_initialize_file_chat; same_files_side. }
  destruct (Hinit w) as [[Hfs1 _] _].
  destruct (Api.initialize_file_chat E w) as [[[]|e] w1]; cbn in Hfs1;
    [|exact Hfs1].
  destruct (bool_decide (ext ∈ OllamaFileChat.get_supported_formats)) eqn:Hin;
    cbn [negb]; [|exact Hfs1].
  apply bool_decide_eq_true_1 in Hin.
  unfold bind at 1, modify at 1. cbn beta iota.
  set (w2 := set_temp_file_path None w1).
  rewrite <- Hfs1. change (fs w1) with (fs w2).
  assert (Htemp2 : temp_file_path w2 = None) by reflexivity.
  clearbody w2. clear Hfs1 Hinit w1 w.
  rewrite try_finally_state, http_errors_state.
  unfold bind at 1. unfold lift at 1.
  destruct (read file) as [e|content].
  { unfold raise at 1. cbn [snd]. by rewrite (remove_temp_file_none E w2 Htemp2). }
  unfold ret at 1. cbn beta iota.
  unfold bind at 1.
  destruct (write_temp_file_cases E ext content w2 Hwrite)
    as [[e He]|(tmp & Htmp & Hfresh & Hstored)].
  { rewrite He. cbn [snd]. by rewrite (remove_temp_file_none E w2 Htemp2). }
  rewrite Hstored. cbn beta iota.
  assert (Hrest : obeys same_files (λ _, True) (Api.analyse E file tmp)).
  { apply obeys_analyse; same_files_side. }
  destruct (Hrest (stored tmp content w2)) as [[Hfs4 Htemp4] _].
  destruct (Api.analyse E file tmp (stored tmp content w2)) as [o' w4].
  cbn [snd] in *.
  rewrite (remove_temp_file_some E w4 tmp content).
  - cbn. rewrite Hfs4. cbn. by apply delete_insert_id.
  - rewrite Htemp4. reflexivity.
  - by apply (candidate_not_empty E ext).
  - rewrite Hfs4. apply lookup_insert_eq.
  - by apply Hstat.
  - by apply Hunlink.
Qed.

(** Instances: a request that succeeds and one whose backend is down; both
    leave no file behind. *)
Lemma temp_file_is_removed_witness :
  let ok := Reference.externals (Reference.answers abc_output) Reference.no_fault in
  let down := Reference.externals Reference.unreachable Reference.no_fault in
  let tmp := "/tmp/tmpk3v9x2ab.txt" in
  (fs (Api.extract_document_sections ok notes_upload Reference.fresh_world).2
     = fs Reference.fresh_world
   ∧ fs (Api.extract_document_sections ok notes_upload Reference.fresh_world).2
       !! tmp = None)
  ∧ (fs (Api.extract_document_sections down notes_upload Reference.fresh_world).2
       = fs Reference.fresh_world
     ∧ fs (Api.extract_document_sections down notes_upload
             Reference.fresh_world).2 !! tmp = None).
Proof.
  split.
  - destruct (temp_file_is_removed
                (Reference.externals (Reference.answers abc_output)
                   Reference.no_fault)
                notes_upload Reference.fresh_world) as [Hfs Hfree];
      [reflexivity|reflexivity|reflexivity|].
    split; [exact Hfs|].
    apply Hfree; [apply list_elem_of_here|reflexivity].
  - destruct (temp_file_is_removed
                (Reference.externals Reference.unreachable Reference.no_fault)
                notes_upload Reference.fresh_world) as [Hfs Hfree];
      [reflexivity|reflexivity|reflexivity|].
    split; [exact Hfs|].
    apply Hfree; [apply list_elem_of_here|reflexivity].
Defined.

(** C8 as stated fails: when [os.unlink] raises [OSError], which the
    [finally] block ignores, the endpoint returns its response and the
    temporary file, which did not exist before the request, is still
    there. *)
Lemma failed_unlink_leaves_the_file :
  let tmp := "/tmp/tmpk3v9x2ab.txt" in
  let E := Reference.externals (Reference.answers abc_output)
             (Reference.cannot_unlink tmp) in
  fs Reference.fresh_world !! tmp = None
  ∧ (Api.extract_document_sections E notes_upload Reference.fresh_world).1
    = Return (success abc_sections (Some "notes.txt") sample_info)
  ∧ fs (Api.extract_document_sections E notes_upload Reference.fresh_world).2
      !! tmp = Some "# A".
Proof. vm_compute. repeat split; reflexivity. Qed.

(** The hypothesis on the write is needed: the name of the temporary file
    is stored only after [temp_file.write], so when the write raises, the
    [finally] block finds [temp_file_path] still [None] and the file, already
    created, stays. *)
Lemma failed_write_leaves_the_file :
  let tmp := "/tmp/tmpk3v9x2ab.txt" in
  let E := Reference.externals (Reference.answers abc_output)
             (Reference.cannot_write tmp) in
  (Api.extract_document_sections E notes_upload Reference.fresh_world).1
    = Raise (processing_error E (Builtin OSError tmp))
  ∧ is_Some (fs (Api.extract_document_sections E notes_upload
                   Reference.fresh_world).2 !! tmp).
Proof. vm_compute. split; [reflexivity|by eexists]. Qed.

(** The round trip through the whole endpoint: a fresh server, an upload,
    a backend that answers with the example output. *)
Lemma round_trip_through_the_endpoint :
  let E := Reference.externals (Reference.answers abc_output) Reference.no_fault in
  Api.extract_document_sections E notes_upload Reference.fresh_world
  = (Return (success abc_sections (Some "notes.txt") sample_info),
     mkWorld ∅
       (Some (mkSession (Some "# A") (Some "/tmp/tmpk3v9x2ab.txt")))
       [ Dispatched TextFile "/tmp/tmpk3v9x2ab.txt";
         Invoked [ SystemMessage OllamaFileChat.sections_system_prompt;
                   HumanMessage "# A" ] ]
       (Some "/tmp/tmpk3v9x2ab.txt")).
Proof. vm_compute. reflexivity. Qed.

(** ** The chunker *)

(** [split_text] hands the text to the langchain splitter built with
    [chunk_size=1000] and [chunk_overlap=200]; how the chunks are cut is
    that library's business. *)
Lemma split_text_configuration (E : Externals) text :
  FileProcessor.split_text E text
  = RecursiveCharacterTextSplitter E 1000 200 text.
Proof. reflexivity. Qed.

(** * Further properties of the code *)

(** ** Running the small steps *)

Lemma read_bytes_ok E path bytes w :
  fs w !! path = Some bytes →
  os_fault E (SysOpen path) = None →
  os.read_bytes E path w = (Return bytes, w).
Proof.
  intros Hfile Hopen.
  unfold os.read_bytes, sys, bind, get, ret. rewrite Hopen. cbn beta iota.
  rewrite Hfile. reflexivity.
Qed.

Lemma call_run E l path w :
  FileProcessor.call E l path w
  = match l with
    | TextFile => FileProcessor._load_text_file E path
    | MarkdownFile => FileProcessor._load_markdown_file E path
    | PdfFile => FileProcessor._load_pdf_file E path
    | WordFile => FileProcessor._load_word_file E path
    end (set_trace (trace w ++ [Dispatched l path]) w).
Proof. reflexivity. Qed.

(** Past its two checks, [load_file] is the registered loader inside the
    wrapping [try]. *)
Lemma load_file_dispatches E path bytes l w :
  fs w !! path = Some bytes →
  os_fault E (SysExists path) = None →
  FileProcessor.dict_get (Py.lower (Path.suffix path))
    FileProcessor.supported_extensions = Some l →
  FileProcessor.load_file E path w
  = try_except (FileProcessor.call E l path)
      (fun e => raise (load_error E e)) w.
Proof.
  intros Hfile Hstat Hget.
  unfold FileProcessor.load_file at 1. unfold bind at 1.
  rewrite (exists_present E path w Hstat) by (rewrite Hfile; by eexists).
  cbn [negb]. rewrite Hget. unfold try_except, bind, ret.
  destruct (FileProcessor.call E l path w) as [[text|e] w1]; reflexivity.
Qed.

Lemma text_file_run E path bytes w :
  fs w !! path = Some bytes →
  os_fault E (SysOpen path) = None →
  FileProcessor._load_text_file E path w
  = (match decode_utf8 E bytes with
     | Some text => Return text
     | None =>
         match decode_gbk E bytes with
         | Some text => Return text
         | None => Raise (Builtin UnicodeDecodeError path)
         end
     end, w).
Proof.
  intros Hfile Hopen.
  unfold FileProcessor._load_text_file, bind.
  rewrite (read_bytes_ok E path bytes w Hfile Hopen).
  destruct (decode_utf8 E bytes) as [text|]; [reflexivity|].
  rewrite (read_bytes_ok E path bytes w Hfile Hopen).
  destruct (decode_gbk E bytes) as [text|]; reflexivity.
Qed.

Lemma load_documents_run E ld path bytes w :
  fs w !! path = Some bytes →
  os_fault E (SysOpen path) = None →
  FileProcessor.load_documents E ld path w
  = (match ld path bytes with
     | inr documents => Return (Py.join Py.nl documents)
     | inl e => Raise (of_lib e)
     end, w).
Proof.
  intros Hfile Hopen.
  unfold FileProcessor.load_documents, bind.
  rewrite (read_bytes_ok E path bytes w Hfile Hopen).
  destruct (ld path bytes); reflexivity.
Qed.

Lemma only_trace_refl w : only_trace w w.
Proof. by repeat split. Qed.

Lemma only_trace_trans w1 w2 w3 :
  only_trace w1 w2 → only_trace w2 w3 → only_trace w1 w3.
Proof. intros (?&?&?) (?&?&?). repeat split; congruence. Qed.

Ltac only_trace_side :=
  first [ exact only_trace_refl
        | exact only_trace_trans
        | intros; exact I
        | intros; repeat split; reflexivity ].

(** ** [FileProcessor]: what loading does and does not do *)

(** X1. Whatever [load_file] raises is a plain [Exception] with one of its
    three messages: the file does not exist, the type is not supported, or
    loading failed, the last one carrying the text of the cause. No
    exception of a loader or of the operating system gets through. *)
Theorem load_file_raises_its_own_exceptions (E : Externals) path w e w' :
  FileProcessor.load_file E path w = (Raise e, w') →
  e = Exception ("文件不存在: " +:+ path)
  ∨ e = Exception ("不支持的文件类型: " +:+ Py.lower (Path.suffix path))
  ∨ ∃ cause, e = Exception ("加载文件时出错: " +:+ str E cause).
Proof.
  unfold FileProcessor.load_file. unfold bind at 1.
  destruct (exists_returns E path w) as [present ->].
  destruct present; cbn [negb].
  2: { intros [= <- _]. by left. }
  destruct (FileProcessor.dict_get _ _) as [l|].
  2: { intros [= <- _]. right. by left. }
  unfold try_except, bind, ret.
  destruct (FileProcessor.call E l path w) as [[text|cause] w1]; [discriminate|].
  intros [= <- _]. right. right. by exists cause.
Qed.

(** An instance: a PDF whose loader fails. *)
Lemma load_file_raises_its_own_exceptions_witness :
  let E := with_loaders quiet broken_loader in
  let e := Exception "加载文件时出错: 无法加载 PDF 文件: damaged file" in
  e = Exception ("文件不存在: " +:+ "/data/paper.pdf")
  ∨ e = Exception ("不支持的文件类型: " +:+ Py.lower (Path.suffix "/data/paper.pdf"))
  ∨ ∃ cause, e = Exception ("加载文件时出错: " +:+ str E cause).
Proof.
  apply (load_file_raises_its_own_exceptions
           (with_loaders quiet broken_loader) "/data/paper.pdf" library_world
           _ (set_trace [Dispatched PdfFile "/data/paper.pdf"] library_world)).
  reflexivity.
Defined.

Lemma load_file_only_trace E path :
  obeys only_trace (λ _, True) (FileProcessor.load_file E path).
Proof. apply obeys_FileProcessor_load_file; only_trace_side. Qed.

Lemma get_file_info_only_trace E path :
  obeys only_trace (λ _, True) (FileProcessor.get_file_info E path).
Proof. apply obeys_get_file_info; only_trace_side. Qed.

(** X2. [load_file] and [get_file_info] only read: whatever they return or
    raise, the files, the chat object and its loaded document are as
    before. *)
Theorem file_processor_only_reads (E : Externals) path w :
  only_trace w (FileProcessor.load_file E path w).2
  ∧ only_trace w (FileProcessor.get_file_info E path w).2.
Proof.
  split; [apply load_file_only_trace|apply get_file_info_only_trace].
Qed.

(** X3. A [.txt] file (in any letter case) is read as UTF-8; only when that
    decoding fails is it read as GBK; when both fail, [load_file] raises its
    loading error around the [UnicodeDecodeError]. Exactly one loader call
    is made, to the text loader. The file is one [os.path.exists] finds. *)
Theorem text_file_is_decoded_utf8_then_gbk (E : Externals) path bytes w :
  fs w !! path = Some bytes →
  os_fault E (SysExists path) = None →
  Py.lower (Path.suffix path) = ".txt" →
  os_fault E (SysOpen path) = None →
  FileProcessor.load_file E path w
  = (match decode_utf8 E bytes with
     | Some text => Return text
     | None =>
         match decode_gbk E bytes with
         | Some text => Return text
         | None => Raise (load_error E (Builtin UnicodeDecodeError path))
         end
     end,
     set_trace (trace w ++ [Dispatched TextFile path]) w).
Proof.
  intros Hfile Hstat Hext Hopen.
  rewrite (load_file_dispatches E path bytes TextFile w Hfile Hstat)
    by (rewrite Hext; reflexivity).
  unfold try_except. rewrite call_run. cbn beta iota.
  rewrite (text_file_run E path bytes
             (set_trace (trace w ++ [Dispatched TextFile path]) w) Hfile Hopen).
  destruct (decode_utf8 E bytes); [reflexivity|].
  destruct (decode_gbk E bytes); reflexivity.
Qed.

(** An instance: bytes that only the second decoder accepts. *)
Lemma text_file_is_decoded_utf8_then_gbk_witness :
  let E := with_decoders quiet refuse (fun bytes => Some ("gbk:" +:+ bytes)) in
  FileProcessor.load_file E "/inbox/Report.TXT" upper_case_world
  = (Return "gbk:# A",
     set_trace [Dispatched TextFile "/inbox/Report.TXT"] upper_case_world).
Proof.
  apply (text_file_is_decoded_utf8_then_gbk
           (with_decoders quiet refuse (fun bytes => Some ("gbk:" +:+ bytes)))
           "/inbox/Report.TXT" "# A" upper_case_world);
    reflexivity.
Defined.

(** X4. A failure of the structured Markdown loader never reaches the caller:
    when it fails on a [.md] file that [os.path.exists] finds, [load_file]
    returns exactly what reading the file as text gives, UTF-8 first and GBK
    second. *)
Theorem markdown_falls_back_to_text (E : Externals) path bytes failure w :
  fs w !! path = Some bytes →
  os_fault E (SysExists path) = None →
  Py.lower (Path.suffix path) = ".md" →
  os_fault E (SysOpen path) = None →
  UnstructuredMarkdownLoader E path bytes = inl failure →
  FileProcessor.load_file E path w
  = (match decode_utf8 E bytes with
     | Some text => Return text
     | None =>
         match decode_gbk E bytes with
         | Some text => Return text
         | None => Raise (load_error E (Builtin UnicodeDecodeError path))
         end
     end,
     set_trace (trace w ++ [Dispatched MarkdownFile path]) w).
Proof.
  intros Hfile Hstat Hext Hopen Hfail.
  rewrite (load_file_dispatches E path bytes MarkdownFile w Hfile Hstat)
    by (rewrite Hext; reflexivity).
  unfold try_except at 1. rewrite call_run. cbn beta iota.
  unfold FileProcessor._load_markdown_file, try_except.
  rewrite (load_documents_run E _ path bytes
             (set_trace (trace w ++ [Dispatched MarkdownFile path]) w)
             Hfile Hopen), Hfail.
  rewrite (text_file_run E path bytes
             (set_trace (trace w ++ [Dispatched MarkdownFile path]) w)
             Hfile Hopen).
  destruct (decode_utf8 E bytes); [reflexivity|].
  destruct (decode_gbk E bytes); reflexivity.
Qed.

(** An instance: the structured loader is broken, the text is returned. *)
Lemma markdown_falls_back_to_text_witness :
  let E := with_loaders quiet broken_loader in
  FileProcessor.load_file E "/data/README.md" readme_world
  = (Return "# Title",
     set_trace [Dispatched MarkdownFile "/data/README.md"] readme_world).
Proof.
  apply (markdown_falls_back_to_text (with_loaders quiet broken_loader)
           "/data/README.md" "# Title" (LibraryError, "damaged file")
           readme_world);
    reflexivity.
Defined.

(** X5. For a [.pdf], [.docx] or [.doc] file that [os.path.exists] finds,
    [load_file] returns the pages the library extracted, joined by line
    feeds; when the extraction fails, it raises its loading error around the
    loader's own message, which in turn carries the text of the library's
    failure. *)
Theorem pdf_and_word_files_are_extracted (E : Externals) path bytes w :
  fs w !! path = Some bytes →
  os_fault E (SysExists path) = None →
  os_fault E (SysOpen path) = None →
  (Py.lower (Path.suffix path) = ".pdf" →
     FileProcessor.load_file E path w
     = (match PyPDFLoader E path bytes with
        | inr pages => Return (Py.join Py.nl pages)
        | inl failure =>
            Raise (Exception ("加载文件时出错: " +:+ "无法加载 PDF 文件: "
                              +:+ py_str E (of_lib failure)))
        end,
        set_trace (trace w ++ [Dispatched PdfFile path]) w))
  ∧ (Py.lower (Path.suffix path) = ".docx"
     ∨ Py.lower (Path.suffix path) = ".doc" →
     FileProcessor.load_file E path w
     = (match UnstructuredWordDocumentLoader E path bytes with
        | inr pages => Return (Py.join Py.nl pages)
        | inl failure =>
            Raise (Exception ("加载文件时出错: " +:+ "无法加载 Word 文件: "
                              +:+ py_str E (of_lib failure)))
        end,
        set_trace (trace w ++ [Dispatched WordFile path]) w)).
Proof.
  intros Hfile Hstat Hopen. split.
  - intros Hext.
    rewrite (load_file_dispatches E path bytes PdfFile w Hfile Hstat)
      by (rewrite Hext; reflexivity).
    unfold try_except at 1. rewrite call_run. cbn beta iota.
    unfold FileProcessor._load_pdf_file, try_except.
    rewrite (load_documents_run E _ path bytes
               (set_trace (trace w ++ [Dispatched PdfFile path]) w)
               Hfile Hopen).
    destruct (PyPDFLoader E path bytes) as [[c a]|pages]; reflexivity.
  - intros Hext.
    rewrite (load_file_dispatches E path bytes WordFile w Hfile Hstat)
      by (destruct Hext as [-> | ->]; reflexivity).
    unfold try_except at 1. rewrite call_run. cbn beta iota.
    unfold FileProcessor._load_word_file, try_except.
    rewrite (load_documents_run E _ path bytes
               (set_trace (trace w ++ [Dispatched WordFile path]) w)
               Hfile Hopen).
    destruct (UnstructuredWordDocumentLoader E path bytes) as [[c a]|pages];
      reflexivity.
Qed.

(** Instances: a PDF of two pages, and a PDF whose extraction fails. *)
Lemma pdf_and_word_files_are_extracted_witness :
  FileProcessor.load_file (with_loaders quiet two_pages) "/data/paper.pdf"
    library_world
  = (Return ("page one" +:+ Py.nl +:+ "page two"),
     set_trace [Dispatched PdfFile "/data/paper.pdf"] library_world)
  ∧ FileProcessor.load_file (with_loaders quiet broken_loader)
      "/data/paper.pdf" library_world
    = (Raise (Exception "加载文件时出错: 无法加载 PDF 文件: damaged file"),
       set_trace [Dispatched PdfFile "/data/paper.pdf"] library_world).
Proof.
  split.
  - apply (pdf_and_word_files_are_extracted (with_loaders quiet two_pages)
             "/data/paper.pdf" "%PDF" library_world); reflexivity.
  - apply (pdf_and_word_files_are_extracted (with_loaders quiet broken_loader)
             "/data/paper.pdf" "%PDF" library_world); reflexivity.
Defined.

(** ** [OllamaFileChat]: loading and asking *)

(** [load_file] by cases on what the two calls to the file processor do. *)
Lemma chat_load_file_run E path w s :
  file_chat w = Some s →
  OllamaFileChat.load_file E path w
  = match FileProcessor.load_file E path w with
    | (Return text, w1) =>
        match FileProcessor.get_file_info E path
                (set_file_chat (Some (mkSession (Some text) (Some path))) w1)
        with
        | (Return _, w2) => (Return true, w2)
        | (Raise _, w2) => (Return false, w2)
        end
    | (Raise _, w1) => (Return false, w1)
    end.
Proof.
  intros Hchat.
  destruct (load_file_only_trace E path w) as [(_ & Hsame & _) _].
  unfold OllamaFileChat.load_file, OllamaFileChat.self,
    OllamaFileChat.set_current_file_content,
    OllamaFileChat.set_current_file_path, modify, bind, get, ret, try_except.
  cbn beta iota. rewrite Hchat. cbn beta iota.
  destruct (FileProcessor.load_file E path w) as [[text|e] w1];
    [|reflexivity].
  cbn [snd] in Hsame. rewrite Hchat in Hsame.
  cbn [file_chat set_file_chat fs trace temp_file_path].
  rewrite Hsame.
  cbn [fmap option_fmap option_map current_file_content current_file_path].
  unfold set_file_chat.
  destruct (FileProcessor.get_file_info E path _) as [[info|e] w2];
    reflexivity.
Qed.

(** When [load_file] returns, [os.path.exists] has found the file. *)
Lemma load_file_returns_for_a_file E path text w w1 :
  FileProcessor.load_file E path w = (Return text, w1) →
  is_Some (fs w !! path) ∧ os_fault E (SysExists path) = None.
Proof.
  unfold FileProcessor.load_file. unfold bind at 1.
  destruct (os_fault E (SysExists path)) as [failure|] eqn:Hstat.
  { rewrite (exists_unseen E path failure w Hstat). discriminate. }
  destruct (fs w !! path) as [bytes|] eqn:Hfile; [by split; [eexists|]|].
  rewrite (exists_absent E path w Hfile). discriminate.
Qed.

Lemma get_file_info_stat_fails E path failure w :
  is_Some (fs w !! path) →
  os_fault E (SysExists path) = None →
  os_fault E (SysStat path) = Some failure →
  FileProcessor.get_file_info E path w = (Raise (of_lib failure), w).
Proof.
  intros Hfile Hseen Hstat.
  unfold FileProcessor.get_file_info. unfold bind at 1.
  rewrite (exists_present E path w Hseen Hfile). cbn [negb].
  unfold os.st_size, sys, bind, raise. rewrite Hstat. reflexivity.
Qed.

(** [ask_about_file] by cases on the loaded content and the backend. *)
Lemma ask_run E question w s :
  file_chat w = Some s →
  OllamaFileChat.ask_about_file E question w
  = if Py.truthy (current_file_content s) then
      let messages := [ SystemMessage (OllamaFileChat.ask_system_prompt s);
                        HumanMessage question ] in
      (Return match llm_invoke E messages with
              | inr text => text
              | inl e => "分析文件时出错: " +:+ str E (of_lib e)
              end,
       set_trace (trace w ++ [Invoked messages]) w)
    else (Return OllamaFileChat.please_load_first, w).
Proof.
  intros Hchat.
  unfold OllamaFileChat.ask_about_file, OllamaFileChat.self, bind, get, ret,
    try_except, record, modify.
  cbn beta iota. rewrite Hchat. cbn beta iota.
  destruct (Py.truthy (current_file_content s)); cbn [negb]; [|reflexivity].
  cbn beta iota zeta.
  destruct (llm_invoke E _); reflexivity.
Qed.

(** The three fixed questions go through [ask_about_file]. *)
Lemma fixed_questions_run E w s :
  file_chat w = Some s →
  OllamaFileChat.summarize_file E w
    = OllamaFileChat.ask_about_file E
        "请为这个文件提供一个详细的摘要，包括主要内容、关键点和结论。" w
  ∧ OllamaFileChat.analyze_file_structure E w
    = OllamaFileChat.ask_about_file E
        "请分析这个文件的结构和组织方式，包括章节、段落布局等。" w
  ∧ OllamaFileChat.extract_key_points E w
    = OllamaFileChat.ask_about_file E
        "请从这个文件中提取最重要的关键点，以列表形式呈现。" w.
Proof.
  intros Hchat.
  unfold OllamaFileChat.summarize_file, OllamaFileChat.analyze_file_structure,
    OllamaFileChat.extract_key_points, OllamaFileChat.self, bind, get, ret.
  cbn beta iota. rewrite Hchat. cbn beta iota.
  destruct (Py.truthy (current_file_content s)) eqn:Hloaded; cbn [negb].
  - repeat split; reflexivity.
  - rewrite !(ask_run E _ w s Hchat), Hloaded. repeat split; reflexivity.
Qed.

(** [extract_document_sections] by cases, as [ask_run]. *)
Lemma extract_run E w s :
  file_chat w = Some s →
  OllamaFileChat.extract_document_sections E w
  = if Py.truthy (current_file_content s) then
      let messages :=
        [ SystemMessage OllamaFileChat.sections_system_prompt;
          HumanMessage (default EmptyString (current_file_content s)) ] in
      (Return match llm_invoke E messages with
              | inr text => text
              | inl e => OllamaFileChat.error_json E (of_lib e)
              end,
       set_trace (trace w ++ [Invoked messages]) w)
    else (Return OllamaFileChat.empty_sections_json, w).
Proof.
  intros Hchat.
  unfold OllamaFileChat.extract_document_sections, OllamaFileChat.self, bind,
    get, ret, try_except, record, modify.
  cbn beta iota. rewrite Hchat. cbn beta iota.
  destruct (Py.truthy (current_file_content s)); cbn [negb]; [|reflexivity].
  cbn beta iota zeta.
  destruct (llm_invoke E _); reflexivity.
Qed.

(** X6. When [OllamaFileChat.load_file] returns [True], the chat object holds
    exactly the text the file processor returned and the path that was
    asked for, in place of whatever was loaded before; no file has
    changed. *)
Theorem true_means_the_document_is_loaded (E : Externals) path w s w' :
  file_chat w = Some s →
  OllamaFileChat.load_file E path w = (Return true, w') →
  ∃ text w1,
    FileProcessor.load_file E path w = (Return text, w1)
    ∧ file_chat w' = Some (mkSession (Some text) (Some path))
    ∧ fs w' = fs w.
Proof.
  intros Hchat. rewrite (chat_load_file_run E path w s Hchat).
  destruct (load_file_only_trace E path w) as [(Hfs1 & _ & _) _].
  destruct (FileProcessor.load_file E path w) as [[text|e] w1]; [|discriminate].
  cbn [snd] in Hfs1.
  set (wq := set_file_chat _ w1).
  destruct (get_file_info_only_trace E path wq) as [(Hfs2 & Hchat2 & _) _].
  destruct (FileProcessor.get_file_info E path wq) as [[info|e] w2];
    [|discriminate].
  intros [= <-]. exists text, w1. cbn [snd] in *.
  split; [reflexivity|]. split; [exact Hchat2|]. by rewrite Hfs2.
Qed.

(** An instance: a second document replaces the first. *)
Lemma true_means_the_document_is_loaded_witness :
  let w := mkWorld {[ "/data/notes.txt" := "# A"; "/data/more.txt" := "# B" ]}
             (Some (mkSession (Some "# A") (Some "/data/notes.txt"))) [] None in
  ∃ text w1,
    FileProcessor.load_file quiet "/data/more.txt" w = (Return text, w1)
    ∧ file_chat (OllamaFileChat.load_file quiet "/data/more.txt" w).2
      = Some (mkSession (Some text) (Some "/data/more.txt"))
    ∧ fs (OllamaFileChat.load_file quiet "/data/more.txt" w).2 = fs w.
Proof.
  cbv zeta.
  eapply (true_means_the_document_is_loaded quiet "/data/more.txt").
  - reflexivity.
  - vm_compute. reflexivity.
Defined.

(** X7. [load_file] can return [False] and still replace the document: when
    the file was loaded but [os.stat] then fails in [get_file_info], the new
    text and path are already stored. *)
Theorem false_after_stat_failure_still_replaces (E : Externals) path w s
    text w1 failure :
  file_chat w = Some s →
  FileProcessor.load_file E path w = (Return text, w1) →
  os_fault E (SysStat path) = Some failure →
  ∃ w', OllamaFileChat.load_file E path w = (Return false, w')
        ∧ file_chat w' = Some (mkSession (Some text) (Some path)).
Proof.
  intros Hchat Hload Hstat.
  rewrite (chat_load_file_run E path w s Hchat), Hload.
  destruct (load_file_only_trace E path w) as [(Hfs1 & _ & _) _].
  rewrite Hload in Hfs1. cbn [snd] in Hfs1.
  destruct (load_file_returns_for_a_file E path text w w1 Hload)
    as [Hfile Hseen].
  rewrite (get_file_info_stat_fails E path failure).
  - eexists. split; reflexivity.
  - cbn [fs set_file_chat]. rewrite Hfs1. exact Hfile.
  - exact Hseen.
  - exact Hstat.
Qed.

(** An instance: the first document is gone although the call said
    [False]. *)
Lemma false_after_stat_failure_still_replaces_witness :
  let E := Reference.externals Reference.unreachable cannot_stat in
  let w := mkWorld {[ "/data/notes.txt" := "# A"; "/data/more.txt" := "# B" ]}
             (Some (mkSession (Some "# A") (Some "/data/notes.txt"))) [] None in
  ∃ w', OllamaFileChat.load_file E "/data/more.txt" w = (Return false, w')
        ∧ file_chat w' = Some (mkSession (Some "# B") (Some "/data/more.txt")).
Proof.
  cbv zeta.
  eapply (false_after_stat_failure_still_replaces
            (Reference.externals Reference.unreachable cannot_stat)
            "/data/more.txt").
  - reflexivity.
  - vm_compute. reflexivity.
  - reflexivity.
Defined.

(** X8. No method of [OllamaFileChat] raises: on an existing chat object,
    [load_file], [ask_about_file], [summarize_file],
    [analyze_file_structure], [extract_key_points] and
    [extract_document_sections] all return, whatever the file system, the
    loaders and the backend do. *)
Theorem chat_methods_never_raise (E : Externals) path question w s :
  file_chat w = Some s →
  (∃ r w', OllamaFileChat.load_file E path w = (Return r, w'))
  ∧ (∃ r w', OllamaFileChat.ask_about_file E question w = (Return r, w'))
  ∧ (∃ r w', OllamaFileChat.summarize_file E w = (Return r, w'))
  ∧ (∃ r w', OllamaFileChat.analyze_file_structure E w = (Return r, w'))
  ∧ (∃ r w', OllamaFileChat.extract_key_points E w = (Return r, w'))
  ∧ (∃ r w', OllamaFileChat.extract_document_sections E w = (Return r, w')).
Proof.
  intros Hchat.
  assert (Hask : ∀ q, ∃ r w',
             OllamaFileChat.ask_about_file E q w = (Return r, w')).
  { intros q. rewrite (ask_run E q w s Hchat).
    destruct (Py.truthy (current_file_content s)); eexists _, _; reflexivity. }
  destruct (fixed_questions_run E w s Hchat) as (-> & -> & ->).
  split; [|split; [apply Hask|split; [apply Hask|split; [apply Hask|
    split; [apply Hask|]]]]].
  - rewrite (chat_load_file_run E path w s Hchat).
    destruct (FileProcessor.load_file E path w) as [[text|e] w1];
      [|eexists _, _; reflexivity].
    destruct (FileProcessor.get_file_info E path _) as [[info|e] w2];
      eexists _, _; reflexivity.
  - rewrite (extract_run E w s Hchat).
    destruct (Py.truthy (current_file_content s)); eexists _, _; reflexivity.
Qed.

(** An instance: a loaded document and a backend that is down. *)
Lemma chat_methods_never_raise_witness :
  let w := Reference.loaded_world in
  (∃ r w', OllamaFileChat.load_file quiet "/data/missing.pdf" w = (Return r, w'))
  ∧ (∃ r w', OllamaFileChat.ask_about_file quiet "Why?" w = (Return r, w'))
  ∧ (∃ r w', OllamaFileChat.summarize_file quiet w = (Return r, w'))
  ∧ (∃ r w', OllamaFileChat.analyze_file_structure quiet w = (Return r, w'))
  ∧ (∃ r w', OllamaFileChat.extract_key_points quiet w = (Return r, w'))
  ∧ (∃ r w', OllamaFileChat.extract_document_sections quiet w = (Return r, w')).
Proof.
  apply (chat_methods_never_raise quiet "/data/missing.pdf" "Why?"
           Reference.loaded_world
           (mkSession (Some "# A") (Some "/data/notes.txt"))).
  reflexivity.
Defined.

Lemma prefix_length n s : (String.length (Py.prefix n s) <= n)%nat.
Proof.
  unfold Py.prefix. revert s.
  induction n as [|n IH]; intros [|c s]; cbn; try lia.
  specialize (IH s). lia.
Qed.

Lemma prefix_is_a_prefix n s : String.prefix (Py.prefix n s) s = true.
Proof.
  unfold Py.prefix. revert s.
  induction n as [|n IH]; intros [|c s]; cbn; try reflexivity.
  destruct (ascii_dec c c) as [_|Hne]; [apply IH|by destruct Hne].
Qed.

Lemma truthy_nonempty document :
  document ≠ EmptyString → Py.truthy (Some document) = true.
Proof. by destruct document. Qed.

(** X9. With a document loaded, [ask_about_file] sends exactly one request,
    the system prompt built from the path and the document followed by the
    question, and returns the answer; a failure of the backend comes back as
    the text "分析文件时出错: ..." instead of an exception. [summarize_file],
    [analyze_file_structure] and [extract_key_points] do the same with
    their fixed questions. *)
Theorem questions_send_one_request (E : Externals) question w s document :
  file_chat w = Some s →
  current_file_content s = Some document →
  document ≠ EmptyString →
  let request q :=
    [ SystemMessage (OllamaFileChat.ask_system_prompt s); HumanMessage q ] in
  let answer q :=
    match llm_invoke E (request q) with
    | inr text => text
    | inl e => "分析文件时出错: " +:+ py_str E (of_lib e)
    end in
  let after q := set_trace (trace w ++ [Invoked (request q)]) w in
  OllamaFileChat.ask_about_file E question w
    = (Return (answer question), after question)
  ∧ OllamaFileChat.summarize_file E w
    = (Return (answer "请为这个文件提供一个详细的摘要，包括主要内容、关键点和结论。"),
       after "请为这个文件提供一个详细的摘要，包括主要内容、关键点和结论。")
  ∧ OllamaFileChat.analyze_file_structure E w
    = (Return (answer "请分析这个文件的结构和组织方式，包括章节、段落布局等。"),
       after "请分析这个文件的结构和组织方式，包括章节、段落布局等。")
  ∧ OllamaFileChat.extract_key_points E w
    = (Return (answer "请从这个文件中提取最重要的关键点，以列表形式呈现。"),
       after "请从这个文件中提取最重要的关键点，以列表形式呈现。").
Proof.
  intros Hchat Hdoc Hne request answer after.
  assert (Hask : ∀ q, OllamaFileChat.ask_about_file E q w
                      = (Return (answer q), after q)).
  { intros q. rewrite (ask_run E q w s Hchat), Hdoc.
    rewrite (truthy_nonempty document Hne). reflexivity. }
  destruct (fixed_questions_run E w s Hchat) as (-> & -> & ->).
  repeat split; apply Hask.
Qed.

(** An instance: the backend is down, and the summary is the error text. *)
Lemma questions_send_one_request_witness :
  let s := mkSession (Some "# A") (Some "/data/notes.txt") in
  let request :=
    [ SystemMessage (OllamaFileChat.ask_system_prompt s);
      HumanMessage "请为这个文件提供一个详细的摘要，包括主要内容、关键点和结论。" ] in
  OllamaFileChat.summarize_file quiet Reference.loaded_world
  = (Return "分析文件时出错: connection refused",
     set_trace [Invoked request] Reference.loaded_world).
Proof.
  cbv zeta.
  apply (questions_send_one_request quiet "Why?" Reference.loaded_world
           (mkSession (Some "# A") (Some "/data/notes.txt")) "# A");
    [reflexivity|reflexivity|discriminate].
Defined.

(** X10. A question sees at most the first 3000 characters of the document:
    two documents under the same path that agree on their first 3000
    characters get the same request and the same answer, and the excerpt in
    the prompt is never longer than 3000. *)
Theorem questions_see_3000_characters (E : Externals) question w1 w2 path
    d1 d2 :
  file_chat w1 = Some (mkSession (Some d1) path) →
  file_chat w2 = Some (mkSession (Some d2) path) →
  d1 ≠ EmptyString → d2 ≠ EmptyString →
  Py.prefix 3000 d1 = Py.prefix 3000 d2 →
  (OllamaFileChat.ask_about_file E question w1).1
    = (OllamaFileChat.ask_about_file E question w2).1
  ∧ (∃ request,
       trace (OllamaFileChat.ask_about_file E question w1).2
         = (trace w1 ++ [Invoked request])%list
       ∧ trace (OllamaFileChat.ask_about_file E question w2).2
         = (trace w2 ++ [Invoked request])%list)
  ∧ (String.length (Py.prefix 3000 d1) <= 3000)%nat.
Proof.
  intros Hchat1 Hchat2 Hne1 Hne2 Hsame.
  rewrite (ask_run E question w1 _ Hchat1), (ask_run E question w2 _ Hchat2).
  cbn [current_file_content].
  rewrite (truthy_nonempty d1 Hne1), (truthy_nonempty d2 Hne2).
  assert (Hprompt :
    OllamaFileChat.ask_system_prompt (mkSession (Some d1) path)
    = OllamaFileChat.ask_system_prompt (mkSession (Some d2) path)).
  { unfold OllamaFileChat.ask_system_prompt.
    cbn [current_file_content current_file_path OllamaFileChat.fmt_optional].
    by rewrite Hsame. }
  cbn zeta. rewrite Hprompt.
  split; [reflexivity|]. split; [|apply prefix_length].
  eexists. split; reflexivity.
Qed.

(** An instance: two documents of 3000 equal letters with different
    endings. *)
Lemma questions_see_3000_characters_witness :
  let w1 := long_world "first ending" in
  let w2 := long_world "second ending" in
  (OllamaFileChat.ask_about_file quiet "Why?" w1).1
    = (OllamaFileChat.ask_about_file quiet "Why?" w2).1
  ∧ (∃ request,
       trace (OllamaFileChat.ask_about_file quiet "Why?" w1).2
         = (trace w1 ++ [Invoked request])%list
       ∧ trace (OllamaFileChat.ask_about_file quiet "Why?" w2).2
         = (trace w2 ++ [Invoked request])%list)
  ∧ (String.length (Py.prefix 3000 (long_document 3000 "first ending"))
     <= 3000)%nat.
Proof.
  apply (questions_see_3000_characters quiet "Why?"
           (long_world "first ending") (long_world "second ending")
           (Some "/data/long.txt")
           (long_document 3000 "first ending")
           (long_document 3000 "second ending")).
  - reflexivity.
  - reflexivity.
  - discriminate.
  - discriminate.
  - vm_compute. reflexivity.
Defined.

(** ** [api.py]: starting up, health, and what a client can be sent *)

(** [initialize_file_chat] by cases. *)
Lemma initialize_run E w :
  Api.initialize_file_chat E w
  = match file_chat w with
    | Some _ => (Return tt, w)
    | None =>
        match read_config E with
        | Some failure => (Raise (of_lib failure), w)
        | None =>
            match ChatOllama E with
            | Some failure =>
                (Raise (HTTPException 500
                          (JString ("初始化AI模型失败: "
                                    +:+ py_str E (of_lib failure)))), w)
            | None =>
                (Return tt, set_file_chat (Some (mkSession None None)) w)
            end
        end
    end.
Proof.
  unfold Api.initialize_file_chat, bind, get, ret, try_except, modify.
  cbn beta iota.
  destruct (file_chat w); [reflexivity|].
  destruct (read_config E); [reflexivity|].
  destruct (ChatOllama E); reflexivity.
Qed.

(** X11. The chat object is built lazily and once: a call that returns
    leaves a chat object behind, keeps an existing one with its loaded
    document untouched, and makes every later call a no-op; a call that
    fails changes nothing, so the next request tries again. The files are
    never touched. *)
Theorem initialization_is_lazy_and_idempotent (E : Externals) w :
  match Api.initialize_file_chat E w with
  | (Return _, w1) =>
      is_Some (file_chat w1)
      ∧ (is_Some (file_chat w) → w1 = w)
      ∧ fs w1 = fs w
      ∧ Api.initialize_file_chat E w1 = (Return tt, w1)
  | (Raise e, w1) =>
      w1 = w ∧ file_chat w = None
      ∧ ((∃ failure, read_config E = Some failure ∧ e = of_lib failure)
         ∨ (∃ failure, ChatOllama E = Some failure
              ∧ e = HTTPException 500
                      (JString ("初始化AI模型失败: "
                                +:+ py_str E (of_lib failure)))))
  end.
Proof.
  rewrite initialize_run.
  destruct (file_chat w) as [s|] eqn:Hchat.
  { split; [by eexists|]. split; [done|]. split; [done|].
    by rewrite initialize_run, Hchat. }
  destruct (read_config E) as [failure|] eqn:Hconfig.
  { split; [done|]. split; [done|]. left. by exists failure. }
  destruct (ChatOllama E) as [failure|] eqn:Hclient.
  { split; [done|]. split; [done|]. right. by exists failure. }
  split; [by eexists|]. split; [by intros [? [=]]|]. split; [done|].
  by rewrite initialize_run.
Qed.

(** X12. The health route answers "healthy" or raises a 503 and nothing
    else: with a chat object in place it returns without changing the state,
    and when the client cannot be built, the 500 of the initializer is
    itself caught and reported inside a 503. *)
Theorem health_is_healthy_or_503 (E : Externals) env w :
  (∀ e, (Routes.health_check E env w).1 = Raise e →
        ∃ detail, e = HTTPException 503 detail)
  ∧ (is_Some (file_chat w) →
     ∃ report, Routes.health_check E env w = (Return report, w)
               ∧ Routes.status report = "healthy")
  ∧ (∀ failure,
       file_chat w = None → read_config E = None →
       ChatOllama E = Some failure →
       Routes.health_check E env w
       = (Raise (HTTPException 503
                   (JString ("服务不可用: "
                      +:+ py_str E
                            (HTTPException 500
                               (JString ("初始化AI模型失败: "
                                         +:+ py_str E (of_lib failure))))))),
          w)).
Proof.
  unfold Routes.health_check, try_except, bind.
  rewrite initialize_run.
  destruct (Config.get_env env "OLLAMA_MODEL" "llama3.1") as [model env1].
  destruct (Config.get_env env1 "OLLAMA_BASE_URL" "http://localhost:11434")
    as [url env2].
  split; [|split].
  - intros e.
    destruct (file_chat w); [discriminate|].
    destruct (read_config E); [intros [= <-]; by eexists|].
    destruct (ChatOllama E); [intros [= <-]; by eexists|discriminate].
  - intros [s ->]. eexists. split; reflexivity.
  - intros failure -> -> ->. reflexivity.
Qed.

(** An instance: a server whose Ollama client cannot be built. *)
Lemma health_is_healthy_or_503_witness :
  let E := with_client quiet (Some (LibraryError, "no route to host")) in
  let env := Config.mkEnviron ∅ None in
  Routes.health_check E env Reference.fresh_world
  = (Raise (HTTPException 503 (JString "服务不可用: HTTPException")),
     Reference.fresh_world)
  ∧ ∃ report,
      Routes.health_check quiet env Reference.idle_world
      = (Return report, Reference.idle_world)
      ∧ Routes.status report = "healthy".
Proof.
  pose proof (health_is_healthy_or_503
                (with_client quiet (Some (LibraryError, "no route to host")))
                (Config.mkEnviron ∅ None) Reference.fresh_world)
    as (_ & _ & Hdown).
  pose proof (health_is_healthy_or_503 quiet (Config.mkEnviron ∅ None)
                Reference.idle_world) as (_ & Hup & _).
  split.
  - apply (Hdown (LibraryError, "no route to host")); reflexivity.
  - apply Hup. by eexists.
Defined.

(** X13. An upload whose extension is not supported, or that has no
    extension or no name at all, is answered 400 with a detail that names
    the extension and lists the five supported ones; the upload is not read,
    no file is created and neither a loader nor the backend is called. *)
Theorem unsupported_upload_is_rejected_first (E : Externals) file w w1 :
  Api.initialize_file_chat E w = (Return tt, w1) →
  Py.lower (Path.suffix (default EmptyString (filename file)))
    ∉ [".txt"; ".md"; ".pdf"; ".docx"; ".doc"] →
  Api.extract_document_sections E file w
  = (Raise (HTTPException 400
              (JString ("不支持的文件格式: "
                 +:+ Py.lower (Path.suffix (default EmptyString (filename file)))
                 +:+ "。支持的格式: .txt, .md, .pdf, .docx, .doc"))),
     w1).
Proof.
  intros Hinit Hnot.
  unfold Api.extract_document_sections, bind. rewrite Hinit.
  rewrite bool_decide_eq_false_2 by exact Hnot.
  reflexivity.
Qed.

(** Instances: a spreadsheet, and an upload without a file name. *)
Lemma unsupported_upload_is_rejected_first_witness :
  Api.extract_document_sections quiet (mkUpload (Some "table.CSV") (inr "a,b"))
    Reference.idle_world
  = (Raise (HTTPException 400
              (JString "不支持的文件格式: .csv。支持的格式: .txt, .md, .pdf, .docx, .doc")),
     Reference.idle_world)
  ∧ Api.extract_document_sections quiet (mkUpload None (inr "a,b"))
      Reference.idle_world
    = (Raise (HTTPException 400
                (JString "不支持的文件格式: 。支持的格式: .txt, .md, .pdf, .docx, .doc")),
       Reference.idle_world).
Proof.
  split.
  - apply (unsupported_upload_is_rejected_first quiet
             (mkUpload (Some "table.CSV") (inr "a,b")) Reference.idle_world);
      [reflexivity|].
    change (Py.lower (Path.suffix (default EmptyString (Some "table.CSV"))))
      with ".csv".
    rewrite !elem_of_cons, elem_of_nil.
    intros [H|[H|[H|[H|[H|[]]]]]]; discriminate H.
  - apply (unsupported_upload_is_rejected_first quiet
             (mkUpload None (inr "a,b")) Reference.idle_world);
      [reflexivity|].
    change (Py.lower (Path.suffix (default EmptyString None)))
      with EmptyString.
    rewrite !elem_of_cons, elem_of_nil.
    intros [H|[H|[H|[H|[H|[]]]]]]; discriminate H.
Defined.

(** When [os.unlink] fails with [OSError] only, the [finally] block always
    returns. *)
Lemma remove_temp_file_returns E w :
  (∀ path failure,
     os_fault E (SysUnlink path) = Some failure → failure.1 = OSError) →
  ∃ w', Api.remove_temp_file E w = (Return tt, w').
Proof.
  intros Hunlink.
  unfold Api.remove_temp_file. unfold bind at 1, get at 1. cbn beta iota.
  destruct (Py.truthy (temp_file_path w)); [|by eexists].
  unfold bind at 1.
  destruct (exists_returns E (default EmptyString (temp_file_path w)) w)
    as [present ->].
  destruct present; [|by eexists].
  unfold os.unlink, sys, try_except, bind, get, ret, modify, raise.
  cbn beta iota.
  destruct (os_fault E (SysUnlink _)) as [[c a]|] eqn:Hfault; cbn beta iota.
  - apply Hunlink in Hfault. cbn in Hfault. subst c. by eexists.
  - match goal with
    | |- context [fs w !! ?p] => destruct (fs w !! p)
    end; by eexists.
Qed.

Lemma try_finally_outcome {A} (m : M A) (c : M unit) w w' :
  c (m w).2 = (Return tt, w') → (try_finally m c w).1 = (m w).1.
Proof.
  intros Hc. unfold try_finally. destruct (m w) as [o w1]. cbn [snd] in Hc.
  by rewrite Hc.
Qed.

(** What comes out of the outer [except] clauses: the [HTTPException] that
    went in, or the 500 made from any other exception. *)
Lemma http_errors_raises {A} E (m : M A) w e :
  (Api.http_errors E m w).1 = Raise e →
  ∃ inner, (m w).1 = Raise inner
           ∧ ((e = inner ∧ is_HTTPException inner = true)
              ∨ e = processing_error E inner).
Proof.
  unfold Api.http_errors, try_except.
  destruct (m w) as [[a|inner] w1]; [discriminate|].
  destruct (is_HTTPException inner) eqn:Hhttp; intros [= <-];
    exists inner; (split; [reflexivity|]); [left|right]; auto.
Qed.

Ltac inner_side :=
  first [ exact I
        | intros; exact I
        | intros; cbn; auto ].

(** The endpoint's [try] body raises no [HTTPException] but a 422 or a
    500. *)
Lemma upload_body_inner_errors E file ext :
  obeys (λ _ _, True) inner_error
    (bind (lift (read file))
       (fun content =>
          bind (Api.write_temp_file E ext content)
            (fun temp_file_path => Api.analyse E file temp_file_path))).
Proof.
  apply obeys_bind; [inner_side| |intros content].
  { apply obeys_lift; inner_side. }
  apply obeys_bind; [inner_side| |intros temp_file_path].
  { apply obeys_write_temp_file; inner_side. }
  apply obeys_analyse; inner_side.
Qed.

Lemma checked_upload_errors E file ext w e :
  (∀ path failure,
     os_fault E (SysUnlink path) = Some failure → failure.1 = OSError) →
  (try_finally
     (Api.http_errors E
        (bind (lift (read file))
           (fun content =>
              bind (Api.write_temp_file E ext content)
                (fun temp_file_path => Api.analyse E file temp_file_path))))
     (Api.remove_temp_file E) w).1 = Raise e →
  ∃ detail, e = HTTPException 422 detail ∨ e = HTTPException 500 detail.
Proof.
  intros Hunlink.
  match goal with
  | |- (try_finally ?m ?c w).1 = _ → _ =>
      destruct (remove_temp_file_returns E (m w).2 Hunlink) as [w' Hc];
      rewrite (try_finally_outcome m c w w' Hc)
  end.
  intros Hraise.
  apply http_errors_raises in Hraise as (inner & Hinner & Hcase).
  destruct Hcase as [[-> Hhttp] | ->]; [|eexists; right; reflexivity].
  destruct (upload_body_inner_errors E file ext w) as [_ Hbody].
  specialize (Hbody inner Hinner).
  destruct inner as [status detail| |]; try discriminate.
  exists detail. destruct Hbody as [-> | ->]; auto.
Qed.

(** X14. Whatever happens to an upload, the endpoint raises nothing but an
    [HTTPException] with status 400, 422 or 500, provided the configuration
    can be read and [os.unlink] fails with [OSError] only: every failure of
    a loader, of the backend, of [json.loads] or of the response model is
    turned into one of these. *)
Theorem endpoint_errors_are_400_422_500 (E : Externals) file w e :
  read_config E = None →
  (∀ path failure,
     os_fault E (SysUnlink path) = Some failure → failure.1 = OSError) →
  (Api.extract_document_sections E file w).1 = Raise e →
  client_error e.
Proof.
  intros Hconfig Hunlink.
  unfold Api.extract_document_sections, bind at 1.
  rewrite initialize_run, Hconfig.
  assert (Hafter : ∀ w1,
    ((if negb (bool_decide
                 (Py.lower (Path.suffix (default EmptyString (filename file)))
                  ∈ OllamaFileChat.get_supported_formats))
      then raise (HTTPException 400
                    (Api.unsupported_detail
                       (Py.lower (Path.suffix (default EmptyString (filename file))))
                       OllamaFileChat.get_supported_formats))
      else
        bind (modify (set_temp_file_path None))
          (fun _ =>
             try_finally
               (Api.http_errors E
                  (bind (lift (read file))
                     (fun content =>
                        bind (Api.write_temp_file E
                                (Py.lower (Path.suffix
                                   (default EmptyString (filename file))))
                                content)
                          (fun temp_file_path =>
                             Api.analyse E file temp_file_path))))
               (Api.remove_temp_file E))) w1).1 = Raise e →
    client_error e).
  { intros w1.
    destruct (bool_decide _); cbn [negb].
    - unfold bind at 1, modify. cbn beta iota.
      intros Hraise.
      apply checked_upload_errors in Hraise as [detail Hcase]; [|exact Hunlink].
      exists detail. tauto.
    - intros [= <-]. eexists. left. reflexivity. }
  destruct (file_chat w) as [s|]; [apply Hafter|].
  destruct (ChatOllama E) as [failure|]; [|apply Hafter].
  intros [= <-]. eexists. right. right. reflexivity.
Qed.

(** An instance: the backend is down, the endpoint answers 500. *)
Lemma endpoint_errors_are_400_422_500_witness :
  client_error
    (HTTPException 500 (JString "文档结构提取时出错: connection refused")).
Proof.
  apply (endpoint_errors_are_400_422_500 quiet notes_upload
           Reference.fresh_world).
  - reflexivity.
  - intros path failure. discriminate.
  - vm_compute. reflexivity.
Defined.

(** ** The validator: other outputs of the model *)

(** X15. When [json.loads] fails, the endpoint answers 500. For a
    [JSONDecodeError] the detail carries the decoder's message and an
    excerpt of the raw output, which is its first 200 characters at most;
    for any other failure the detail is the generic processing error. No
    empty result is made up. *)
Theorem undecodable_output_is_a_500 (E : Externals) raw class message
    filename file_info w :
  json_loads E raw = inl (class, message) →
  Api.http_errors E (Api.parse_sections E raw filename file_info) w
  = (Raise
       (if is_instance JSONDecodeError (Builtin class message)
        then HTTPException 500
               (JString ("AI响应格式错误: "
                         +:+ py_str E (Builtin class message)
                         +:+ "。原始响应: " +:+ Py.prefix 200 raw +:+ "..."))
        else processing_error E (Builtin class message)), w)
  ∧ (String.length (Py.prefix 200 raw) <= 200)%nat
  ∧ String.prefix (Py.prefix 200 raw) raw = true.
Proof.
  intros Hloads.
  split; [|split; [apply prefix_length|apply prefix_is_a_prefix]].
  unfold Api.http_errors, Api.parse_sections, try_except, bind, lift.
  rewrite Hloads. change (of_lib (class, message)) with (Builtin class message).
  unfold raise. cbn beta iota.
  destruct (is_instance JSONDecodeError (Builtin class message)); reflexivity.
Qed.

(** An instance: the model answered in prose. *)
Lemma undecodable_output_is_a_500_witness :
  Api.http_errors quiet
    (Api.parse_sections quiet "Sure! Here are the sections." None sample_info)
    Reference.idle_world
  = (Raise (HTTPException 500
              (JString "AI响应格式错误: Expecting value。原始响应: Sure! Here are the sections....")),
     Reference.idle_world)
  ∧ (String.length (Py.prefix 200 "Sure! Here are the sections.") <= 200)%nat
  ∧ String.prefix (Py.prefix 200 "Sure! Here are the sections.")
      "Sure! Here are the sections." = true.
Proof.
  apply (undecodable_output_is_a_500 quiet "Sure! Here are the sections."
           JSONDecodeError "Expecting value" None sample_info
           Reference.idle_world).
  vm_compute. reflexivity.
Defined.

(** X16. A model output that is valid JSON but not an object, be it an
    array, a string, a number, a boolean or [null], fails with the generic
    500: none of them is taken for a list of sections. *)
Theorem non_object_output_is_a_500 (E : Externals) raw value
    filename file_info w :
  json_loads E raw = inr value →
  (∀ members, value ≠ JObject members) →
  ∃ cause,
    Api.http_errors E (Api.parse_sections E raw filename file_info) w
    = (Raise (processing_error E cause), w).
Proof.
  intros Hloads Hnot.
  unfold Api.http_errors, Api.parse_sections, try_except, bind, lift.
  rewrite Hloads.
  destruct value as [| | | |text|items|members];
    try (eexists; reflexivity).
  - cbn [PyJson.contains ret]. cbn beta iota.
    destruct (Py.contains "error" text); eexists; reflexivity.
  - cbn [PyJson.contains ret]. cbn beta iota.
    destruct (existsb _ items); eexists; reflexivity.
  - by destruct (Hnot members).
Qed.

(** An instance: the sections came back as a bare array. *)
Lemma non_object_output_is_a_500_witness :
  ∃ cause,
    Api.http_errors quiet (Api.parse_sections quiet "[]" None sample_info)
      Reference.idle_world
    = (Raise (processing_error quiet cause), Reference.idle_world).
Proof.
  apply (non_object_output_is_a_500 quiet "[]" (JArray [])).
  - reflexivity.
  - discriminate.
Defined.

(** When the loop returns, every element was built, in order, and the state
    is as before. *)
Lemma build_sections_returns E items acc secs w w' :
  Api.build_sections E items acc w = (Return secs, w') →
  w' = w
  ∧ ∃ new, secs = (acc ++ new)%list
           ∧ Forall2 (fun item s => Api.build_section E item w = (Return s, w))
               items new.
Proof.
  revert acc. induction items as [|item items IH]; intros acc;
    cbn [Api.build_sections].
  - intros [= <- <-]. split; [reflexivity|].
    exists []. split; [by rewrite app_nil_r|constructor].
  - unfold bind.
    destruct (build_section_outcome E item w) as [[s Hs]|(c & a & Hc & _)];
      [|rewrite Hc; discriminate].
    rewrite Hs. intros Hrest.
    destruct (IH _ Hrest) as (-> & new & -> & Hall).
    split; [reflexivity|].
    exists (s :: new). split; [by rewrite <- app_assoc|].
    by constructor.
Qed.

(** X17. Sections come all or not at all: when the validator returns a
    response for an object with a [sections] array, the response has exactly
    one section per element of the array, each built from the element at
    its position, under the uploaded file's name and with status
    "success"; no element is skipped. *)
Theorem sections_are_all_or_nothing (E : Externals) raw members items
    filename file_info w response w' :
  json_loads E raw = inr (JObject members) →
  members !! "error" = None →
  members !! "sections" = Some (JArray items) →
  Api.http_errors E (Api.parse_sections E raw filename file_info) w
    = (Return response, w') →
  w' = w
  ∧ length (Api.sections response) = length items
  ∧ Forall2 (fun item s => Api.build_section E item w = (Return s, w))
      items (Api.sections response)
  ∧ Api.file_name response = filename
  ∧ Api.processing_status response = "success".
Proof.
  intros Hloads Herr Hsome.
  unfold Api.http_errors, Api.parse_sections, try_except, bind, lift.
  rewrite Hloads. cbn. rewrite Herr. cbn. rewrite Hsome. cbn.
  destruct (Api.build_sections E items [] w) as [[secs|e] w1] eqn:Hbuild.
  - intros [= <- <-].
    destruct (build_sections_returns E items [] secs w w1 Hbuild)
      as (-> & new & -> & Hall).
    cbn. repeat split; try done.
    symmetry. eapply Forall2_length, Hall.
  - destruct (is_instance JSONDecodeError e); cbn;
      [discriminate|].
    destruct (is_HTTPException e); discriminate.
Qed.

(** An instance: the example output and its three sections. *)
Lemma sections_are_all_or_nothing_witness :
  let E := Reference.externals (Reference.answers abc_output) Reference.no_fault in
  let response := success abc_sections None sample_info in
  Reference.idle_world = Reference.idle_world
  ∧ length (Api.sections response) = length (section_value <$> abc_sections)
  ∧ Forall2 (fun item s =>
               Api.build_section E item Reference.idle_world
               = (Return s, Reference.idle_world))
      (section_value <$> abc_sections) (Api.sections response)
  ∧ Api.file_name response = None
  ∧ Api.processing_status response = "success".
Proof.
  cbv zeta.
  eapply (sections_are_all_or_nothing
            (Reference.externals (Reference.answers abc_output) Reference.no_fault)
            abc_output _ (section_value <$> abc_sections) None sample_info
            Reference.idle_world (success abc_sections None sample_info)
            Reference.idle_world).
  - vm_compute. reflexivity.
  - reflexivity.
  - reflexivity.
  - vm_compute. reflexivity.
Defined.

(** X18. A [sections] value that is not an array is accepted in exactly two
    cases, the empty string and the empty object, which the loop takes for
    an empty list; every other string, object, number, boolean or [null]
    fails with the generic 500. *)
Theorem non_array_sections (E : Externals) raw members listed
    filename file_info w :
  json_loads E raw = inr (JObject members) →
  members !! "error" = None →
  members !! "sections" = Some listed →
  (∀ items, listed ≠ JArray items) →
  (listed = JString EmptyString ∨ listed = JObject ∅ →
     Api.http_errors E (Api.parse_sections E raw filename file_info) w
     = (Return (success [] filename file_info), w))
  ∧ (listed ≠ JString EmptyString → listed ≠ JObject ∅ →
     ∃ cause,
       Api.http_errors E (Api.parse_sections E raw filename file_info) w
       = (Raise (processing_error E cause), w)).
Proof.
  intros Hloads Herr Hsome Hnot.
  unfold Api.http_errors, Api.parse_sections, try_except, bind, lift.
  rewrite Hloads. cbn. rewrite Herr. cbn. rewrite Hsome.
  split.
  - intros [-> | ->]; [reflexivity|].
    cbn. rewrite map_to_list_empty. reflexivity.
  - intros Hstring Hobject.
    destruct listed as [| | | |text|items|inner];
      try (eexists; reflexivity).
    + destruct text as [|c text]; [done|]. eexists. reflexivity.
    + by destruct (Hnot items).
    + cbn.
      destruct (map_to_list inner) as [|[key value] rest] eqn:Hlist.
      * apply map_to_list_empty_iff in Hlist. by subst inner.
      * eexists. reflexivity.
Qed.

(** Instances: [{"sections": ""}] is an empty result, [{"sections": null}]
    is an error. *)
Lemma non_array_sections_witness :
  let empty_text := "{" +:+ Py.quoted "sections" +:+ ": "
                    +:+ Py.quoted EmptyString +:+ "}" in
  let null_text := "{" +:+ Py.quoted "sections" +:+ ": null}" in
  Api.http_errors quiet (Api.parse_sections quiet empty_text None sample_info)
    Reference.idle_world
  = (Return (success [] None sample_info), Reference.idle_world)
  ∧ ∃ cause,
      Api.http_errors quiet (Api.parse_sections quiet null_text None sample_info)
        Reference.idle_world
      = (Raise (processing_error quiet cause), Reference.idle_world).
Proof.
  cbv zeta. split.
  - apply (non_array_sections quiet _
             (<["sections" := JString EmptyString]> ∅) (JString EmptyString));
      [vm_compute; reflexivity|reflexivity|reflexivity|discriminate|by left].
  - apply (non_array_sections quiet _ (<["sections" := JNull]> ∅) JNull);
      [vm_compute; reflexivity|reflexivity|reflexivity|discriminate
      |discriminate|discriminate].
Defined.

(** ** The endpoint once the upload is on disk *)

Lemma write_temp_file_ok E ext content w :
  os_fault E (SysCreate (mkstemp E +:+ ext)) = None →
  os_fault E (SysWrite (mkstemp E +:+ ext)) = None →
  fs w !! (mkstemp E +:+ ext) = None →
  Api.write_temp_file E ext content w
  = (Return (mkstemp E +:+ ext), stored (mkstemp E +:+ ext) content w).
Proof.
  intros Hcreate Hwrite Hfree.
  unfold Api.write_temp_file, Api.candidates.
  cbn [fmap list_fmap Api.mkstemp_inner].
  unfold sys, bind, get, ret, modify.
  rewrite Hcreate. cbn beta iota. rewrite Hfree, Hwrite.
  unfold stored, set_temp_file_path, set_fs. cbn.
  by rewrite insert_insert_eq.
Qed.

Lemma http_errors_bind_return {A B} E (m : M A) (k : A → M B) w a w1 :
  m w = (Return a, w1) →
  Api.http_errors E (bind m k) w = Api.http_errors E (k a) w1.
Proof.
  intros Hm. unfold Api.http_errors, try_except, bind. by rewrite Hm.
Qed.

Lemma try_finally_ext {A} (m m' : M A) (c : M unit) w w' :
  m w = m' w' → try_finally m c w = try_finally m' c w'.
Proof. intros Hm. unfold try_finally. by rewrite Hm. Qed.

(** For a stored upload the endpoint is the analysis of the temporary file
    between the outer [except] clauses and the [finally] block. *)
Lemma endpoint_after_upload E file content w :
  stored_upload E file content w →
  Api.extract_document_sections E file w
  = try_finally
      (Api.http_errors E (Api.analyse E file (temp_name E file)))
      (Api.remove_temp_file E)
      (stored (temp_name E file) content w).
Proof.
  intros ([s Hchat] & Hext & Hread & Hcreate & Hwrite & _ & Hfree).
  unfold Api.extract_document_sections, bind at 1.
  rewrite initialize_run, Hchat.
  rewrite (bool_decide_eq_true_2 _ Hext). cbn [negb].
  unfold bind at 1, modify at 1. cbn beta iota.
  apply try_finally_ext.
  rewrite (http_errors_bind_return E _ _ _ content
             (set_temp_file_path None w))
    by (rewrite Hread; reflexivity).
  rewrite (http_errors_bind_return E _ _ _ (temp_name E file)
             (stored (temp_name E file) content w)).
  - reflexivity.
  - apply (write_temp_file_ok E _ content (set_temp_file_path None w));
      assumption.
Qed.

Lemma same_chat_refl w : same_chat w w.
Proof. reflexivity. Qed.

Lemma same_chat_trans w1 w2 w3 :
  same_chat w1 w2 → same_chat w2 w3 → same_chat w1 w3.
Proof. unfold same_chat. congruence. Qed.

Ltac same_chat_side :=
  first [ exact same_chat_refl
        | exact same_chat_trans
        | intros; exact I
        | intros; reflexivity ].

(** When the analysis returns a response, [os.path.exists] has found the
    temporary file and the chat object holds it as its document. *)
Lemma analyse_returns E file path w s response w' :
  file_chat w = Some s →
  Api.analyse E file path w = (Return response, w') →
  os_fault E (SysExists path) = None
  ∧ ∃ text, file_chat w' = Some (mkSession (Some text) (Some path)).
Proof.
  intros Hchat.
  unfold Api.analyse. unfold bind at 1.
  rewrite (chat_load_file_run E path w s Hchat).
  destruct (FileProcessor.load_file E path w) as [[text|e] w1] eqn:Hload;
    [|discriminate].
  destruct (load_file_returns_for_a_file E path text w w1 Hload)
    as [_ Hseen].
  set (wq := set_file_chat _ w1).
  destruct (get_file_info_only_trace E path wq) as [(_ & Hchat2 & _) _].
  destruct (FileProcessor.get_file_info E path wq) as [[info|e] w2];
    [|discriminate].
  cbn [negb snd] in *.
  assert (Hrest : obeys same_chat (λ _, True)
            (bind (FileProcessor.get_file_info E path)
               (fun file_info =>
                  bind (OllamaFileChat.extract_document_sections E)
                    (fun sections_json =>
                       Api.parse_sections E sections_json (filename file)
                         file_info)))).
  { apply obeys_bind; [same_chat_side| |intros file_info].
    { apply obeys_get_file_info; same_chat_side. }
    apply obeys_bind; [same_chat_side| |intros sections_json].
    { apply obeys_OllamaFileChat_extract; same_chat_side. }
    apply obeys_parse_sections; same_chat_side. }
  destruct (Hrest w2) as [Hsame _].
  intros Hreturn. rewrite Hreturn in Hsame. cbn [snd] in Hsame.
  split; [exact Hseen|].
  exists text. unfold same_chat in Hsame. by rewrite Hsame, Hchat2.
Qed.

Lemma analyse_same_files E file path :
  obeys same_files (λ _, True) (Api.analyse E file path).
Proof. apply obeys_analyse; same_files_side. Qed.





Lemma get_file_info_ok E path bytes w :
  fs w !! path = Some bytes →
  os_fault E (SysExists path) = None →
  os_fault E (SysStat path) = None →
  FileProcessor.get_file_info E path w = (Return (info_of E path bytes), w).
Proof.
  intros Hfile Hseen Hstat.
  unfold FileProcessor.get_file_info. unfold bind at 1.
  rewrite (exists_present E path w Hseen) by (rewrite Hfile; by eexists).
  cbn [negb]. unfold os.st_size, sys, bind, get, ret.
  rewrite Hstat. cbn beta iota. rewrite Hfile. reflexivity.
Qed.

(** The analysis of a temporary file that loads: what is left is to parse
    what the backend said, or the error text made from its failure. *)
Lemma analyse_run E file path bytes text w s w1 :
  file_chat w = Some s →
  fs w !! path = Some bytes →
  os_fault E (SysStat path) = None →
  FileProcessor.load_file E path w = (Return text, w1) →
  text ≠ EmptyString →
  Api.analyse E file path w
  = Api.parse_sections E
      match llm_invoke E (sections_request text) with
      | inr answer => answer
      | inl failure => OllamaFileChat.error_json E (of_lib failure)
      end
      (filename file) (info_of E path bytes) (analysed path text w1).
Proof.
  intros Hchat Hfile Hstat Hload Hne.
  destruct (load_file_only_trace E path w) as [(Hfs1 & _ & _) _].
  rewrite Hload in Hfs1. cbn [snd] in Hfs1.
  destruct (load_file_returns_for_a_file E path text w w1 Hload)
    as [_ Hseen].
  unfold Api.analyse. unfold bind at 1.
  rewrite (chat_load_file_run E path w s Hchat), Hload.
  set (wq := set_file_chat _ w1).
  assert (Hq : fs wq !! path = Some bytes) by (cbn; by rewrite Hfs1).
  rewrite (get_file_info_ok E path bytes wq Hq Hseen Hstat). cbn [negb].
  unfold bind at 1. rewrite (get_file_info_ok E path bytes wq Hq Hseen Hstat).
  unfold bind at 1.
  rewrite (extract_run E wq (mkSession (Some text) (Some path)))
    by reflexivity.
  cbn [current_file_content]. rewrite (truthy_nonempty text Hne).
  reflexivity.
Qed.



Lemma parse_sections_well_typed E raw members items secs filename file_info w :
  (∀ n, validate_int E (JInt n) = Some n) →
  (∀ s, validate_str E (JString s) = Some s) →
  json_loads E raw = inr (JObject members) →
  members !! "error" = None →
  members !! "sections" = Some (JArray items) →
  Forall2 well_typed items secs →
  Api.parse_sections E raw filename file_info w
  = (Return (success secs filename file_info), w).
Proof.
  intros Hint Hstr Hloads Herr Hsome Htyped.
  unfold Api.parse_sections, try_except, bind, lift.
  rewrite Hloads. cbn. rewrite Herr. cbn. rewrite Hsome. cbn.
  rewrite (build_sections_well_typed E Hint Hstr items secs [] w Htyped).
  reflexivity.
Qed.



(** ** The three places that decide what is supported *)

Lemma dict_get_keys {V} key (d : list (string * V)) :
  is_Some (FileProcessor.dict_get key d) ↔ key ∈ d.*1.
Proof.
  induction d as [|[k v] d IH]; cbn.
  - split; [by intros [? [=]]|by intros ?%elem_of_nil].
  - rewrite elem_of_cons.
    destruct (String.eqb_spec k key) as [->|Hne].
    + split; [by left|by eexists].
    + rewrite IH. split; [by right|]. intros [->|H]; [done|exact H].
Qed.

(** X23. The formats the supported-formats route advertises are exactly the
    ones accepted: for every file name, its lower-cased extension is in the
    advertised list if and only if [is_supported_file] accepts the name, and
    if and only if the upload endpoint does not answer 400 for it. *)
Theorem advertised_formats_are_the_accepted_ones (E : Externals) name w s :
  file_chat w = Some s →
  ∃ formats,
    Routes.get_supported_formats E w = (Return formats, w)
    ∧ (Py.lower (Path.suffix name) ∈ Routes.supported_formats formats
       ↔ FileProcessor.is_supported_file name = true)
    ∧ (Py.lower (Path.suffix name) ∈ Routes.supported_formats formats
       ↔ ∀ body detail,
           (Api.extract_document_sections E (mkUpload (Some name) body) w).1
           ≠ Raise (HTTPException 400 detail)).
Proof.
  intros Hchat.
  eexists. split; [|split].
  - unfold Routes.get_supported_formats, bind. rewrite initialize_run, Hchat.
    reflexivity.
  - cbn [Routes.supported_formats].
    unfold FileProcessor.is_supported_file, OllamaFileChat.get_supported_formats.
    rewrite <- dict_get_keys. by rewrite bool_decide_eq_true.
  - cbn [Routes.supported_formats]. split.
    + intros Hin body detail Hraise.
      assert (H : obeys (λ _ _, True) not_400
                    (Api.extract_document_sections E
                       (mkUpload (Some name) body))).
      { apply obeys_endpoint; try done. }
      destruct (H w) as [_ Hnot]. exact (Hnot _ Hraise detail eq_refl).
    + intros Hnever.
      destruct (decide (Py.lower (Path.suffix name)
                        ∈ OllamaFileChat.get_supported_formats))
        as [Hin|Hout]; [exact Hin|].
      exfalso. eapply (Hnever (inr EmptyString)).
      unfold Api.extract_document_sections, bind.
      rewrite initialize_run, Hchat.
      cbn [filename default from_option id].
      rewrite (bool_decide_eq_false_2 _ Hout). reflexivity.
Qed.

(** An instance: [Thesis.DOCX] is advertised, accepted and not refused. *)
Lemma advertised_formats_are_the_accepted_ones_witness :
  ∃ formats,
    Routes.get_supported_formats quiet Reference.idle_world
      = (Return formats, Reference.idle_world)
    ∧ (Py.lower (Path.suffix "Thesis.DOCX") ∈ Routes.supported_formats formats
       ↔ FileProcessor.is_supported_file "Thesis.DOCX" = true)
    ∧ (Py.lower (Path.suffix "Thesis.DOCX") ∈ Routes.supported_formats formats
       ↔ ∀ body detail,
           (Api.extract_document_sections quiet
              (mkUpload (Some "Thesis.DOCX") body) Reference.idle_world).1
           ≠ Raise (HTTPException 400 detail)).
Proof.
  apply (advertised_formats_are_the_accepted_ones quiet "Thesis.DOCX"
           Reference.idle_world (mkSession None None)).
  reflexivity.
Defined.

(** ** Uploads that do not reach the analysis *)

(** With a chat object in place and a supported extension, the endpoint is
    its [try] statement, run with [temp_file_path] set to [None]. *)
Lemma endpoint_checked E file w s :
  file_chat w = Some s →
  Py.lower (Path.suffix (default EmptyString (filename file)))
    ∈ OllamaFileChat.get_supported_formats →
  Api.extract_document_sections E file w
  = try_finally
      (Api.http_errors E
         (bind (lift (read file))
            (fun content =>
               bind (Api.write_temp_file E
                       (Py.lower (Path.suffix
                                    (default EmptyString (filename file))))
                       content)
                 (fun temp_file_path => Api.analyse E file temp_file_path))))
      (Api.remove_temp_file E) (set_temp_file_path None w).
Proof.
  intros Hchat Hext.
  unfold Api.extract_document_sections, bind at 1.
  rewrite initialize_run, Hchat.
  rewrite (bool_decide_eq_true_2 _ Hext). reflexivity.
Qed.

(** When every candidate name is taken, the search for a name raises
    [FileExistsError] and creates nothing. *)
Lemma mkstemp_inner_exhausted E names w :
  (∀ path, path ∈ names →
     os_fault E (SysCreate path) = None ∧ is_Some (fs w !! path)) →
  Api.mkstemp_inner E names w
  = (Raise (Builtin OSError "No usable temporary file name found"), w).
Proof.
  induction names as [|path rest IH]; intros Htaken;
    cbn [Api.mkstemp_inner]; [reflexivity|].
  destruct (Htaken path (list_elem_of_here _ _)) as [Hcreate [old Hold]].
  unfold bind, sys, get. rewrite Hcreate. unfold ret at 1. cbn beta iota.
  rewrite Hold. apply IH. intros p Hin.
  apply Htaken. by apply list_elem_of_further.
Qed.

Lemma write_temp_file_exhausted E ext content w :
  (∀ path, path ∈ Api.candidates E ext →
     os_fault E (SysCreate path) = None ∧ is_Some (fs w !! path)) →
  Api.write_temp_file E ext content w
  = (Raise (Builtin OSError "No usable temporary file name found"), w).
Proof.
  intros Htaken. unfold Api.write_temp_file, bind.
  by rewrite (mkstemp_inner_exhausted E _ w Htaken).
Qed.

(** Writing the upload to disk, whatever fails: nothing happens, or an empty
    file is left under a name that was free, or the upload is stored under
    such a name. *)
Lemma write_temp_file_any E ext content w :
  (∃ e, Api.write_temp_file E ext content w = (Raise e, w))
  ∨ (∃ path e, fs w !! path = None
       ∧ Api.write_temp_file E ext content w
         = (Raise e, set_fs (<[path := EmptyString]> (fs w)) w))
  ∨ (∃ path, fs w !! path = None
       ∧ Api.write_temp_file E ext content w
         = (Return path, stored path content w)).
Proof.
  unfold Api.write_temp_file.
  destruct (mkstemp_inner_cases E (Api.candidates E ext) w)
    as [[e He]|(path & Hin & Hfree & Hpath)].
  - left. exists e. unfold bind at 1. rewrite He. reflexivity.
  - right.
    destruct (os_fault E (SysWrite path)) as [e|] eqn:Hwrite.
    + left. exists path, (of_lib e). split; [exact Hfree|].
      unfold bind at 1. rewrite Hpath. cbn beta iota.
      unfold bind, sys. rewrite Hwrite. reflexivity.
    + right. exists path. split; [exact Hfree|].
      unfold bind at 1. rewrite Hpath. cbn beta iota.
      unfold bind, sys, modify. rewrite Hwrite.
      unfold ret, stored, set_temp_file_path, set_fs. cbn.
      by rewrite insert_insert_eq.
Qed.

(** The [finally] block leaves the files alone or deletes the one file
    whose name is in [temp_file_path]. *)
Lemma remove_temp_file_fs E w :
  fs (Api.remove_temp_file E w).2 = fs w
  ∨ ∃ path, temp_file_path w = Some path
            ∧ fs (Api.remove_temp_file E w).2 = delete path (fs w).
Proof.
  destruct (Api.remove_temp_file E w) as [o w'] eqn:Hrun. cbn [snd].
  revert Hrun.
  unfold Api.remove_temp_file. unfold bind at 1, get at 1. cbn beta iota.
  destruct (temp_file_path w) as [path|] eqn:Htemp;
    [|intros [= _ <-]; by left].
  destruct (Py.truthy (Some path)); [|intros [= _ <-]; by left].
  cbn [default from_option id]. unfold bind at 1.
  destruct (exists_returns E path w) as [present ->].
  destruct present; [|intros [= _ <-]; by left].
  unfold os.unlink, sys, try_except, bind, get, ret, modify, raise.
  cbn beta iota.
  destruct (os_fault E (SysUnlink path)) as [[c a]|]; cbn beta iota.
  { destruct (is_instance OSError (of_lib (c, a))); intros [= _ <-]; by left. }
  destruct (fs w !! path); cbn; intros [= _ <-]; [|by left].
  right. exists path. by split.
Qed.

(** Whatever happens to a request, the files that were there before it are
    still there, with the same bytes. *)
Lemma endpoint_keeps_existing_files E file w path :
  is_Some (fs w !! path) →
  fs (Api.extract_document_sections E file w).2 !! path = fs w !! path.
Proof.
  intros Hold.
  unfold Api.extract_document_sections.
  set (ext := Py.lower (Path.suffix (default EmptyString (filename file)))).
  unfold bind at 1.
  assert (Hinit : obeys same_files (λ _, True) (Api.initialize_file_chat E)).
  { apply obeys_initialize_file_chat; same_files_side. }
  destruct (Hinit w) as [[Hfs1 _] _].
  destruct (Api.initialize_file_chat E w) as [[[]|e] w1]; cbn in Hfs1;
    [|cbn [snd]; by rewrite Hfs1].
  destruct (bool_decide (ext ∈ OllamaFileChat.get_supported_formats));
    cbn [negb]; [|cbn [snd raise]; by rewrite Hfs1].
  unfold bind at 1, modify at 1. cbn beta iota.
  set (w2 := set_temp_file_path None w1).
  rewrite <- Hfs1 in *. change (fs w1) with (fs w2) in *.
  assert (Htemp2 : temp_file_path w2 = None) by reflexivity.
  clearbody w2. clear Hfs1 Hinit w1 w.
  rewrite try_finally_state, http_errors_state.
  unfold bind at 1. unfold lift at 1.
  destruct (read file) as [e|content].
  { unfold raise at 1. cbn [snd]. by rewrite (remove_temp_file_none E w2 Htemp2). }
  unfold ret at 1. cbn beta iota.
  unfold bind at 1.
  destruct (write_temp_file_any E ext content w2)
    as [[e ->]|[(tmp & e & Hfree & ->)|(tmp & Hfree & ->)]]; cbn beta iota.
  - cbn [snd]. by rewrite (remove_temp_file_none E w2 Htemp2).
  - cbn [snd]. rewrite remove_temp_file_none by exact Htemp2.
    cbn. apply lookup_insert_ne. intros <-. rewrite Hfree in Hold.
    by destruct Hold.
  - assert (Hrest : obeys same_files (λ _, True) (Api.analyse E file tmp)).
    { apply obeys_analyse; same_files_side. }
    destruct (Hrest (stored tmp content w2)) as [[Hfs4 Htemp4] _].
    destruct (Api.analyse E file tmp (stored tmp content w2)) as [o' w4].
    cbn [snd] in *.
    assert (Hne : tmp ≠ path).
    { intros <-. rewrite Hfree in Hold. by destruct Hold. }
    destruct (remove_temp_file_fs E w4) as [->|(t & Ht & ->)].
    + rewrite Hfs4. cbn. by apply lookup_insert_ne.
    + rewrite Htemp4 in Ht. injection Ht as <-.
      rewrite lookup_delete_ne by exact Hne.
      rewrite Hfs4. cbn. by apply lookup_insert_ne.
Qed.



(** The request of the last instance succeeds: the upload goes under the
    next name, which is the one the chat object keeps, and the files are as
    before. *)
Lemma taken_name_is_passed_over :
  let E := Reference.externals (Reference.answers abc_output) Reference.no_fault in
  (Api.extract_document_sections E notes_upload taken_world).1
    = Return (success abc_sections (Some "notes.txt") sample_info)
  ∧ file_chat (Api.extract_document_sections E notes_upload taken_world).2
    = Some (mkSession (Some "# A") (Some "/tmp/tmp8h2qzd1c.txt"))
  ∧ fs (Api.extract_document_sections E notes_upload taken_world).2
    = fs taken_world.
Proof. vm_compute. repeat split; reflexivity. Qed.

(** X25. When [os.stat] fails on the temporary file, so that
    [os.path.exists] answers [False] for it, the endpoint answers 422, not
    500: [load_file] takes the file for missing and the chat object reports
    that it could not load it. No loader is called and the chat object keeps
    what it held; the temporary file stays on disk with the upload in it,
    because the [finally] block asks [os.path.exists] before it unlinks. *)
Theorem stat_failure_is_a_422 (E : Externals) file content w failure :
  stored_upload E file content w →
  os_fault E (SysExists (temp_name E file)) = Some failure →
  Api.extract_document_sections E file w
  = (Raise (HTTPException 422 (JString "无法加载文件内容")),
     stored (temp_name E file) content w)
  ∧ fs (stored (temp_name E file) content w) !! temp_name E file
    = Some content.
Proof.
  intros Hup Hstat.
  split; [|apply lookup_insert_eq].
  rewrite (endpoint_after_upload E file content w Hup).
  destruct Hup as ([s Hchat] & _).
  set (tmp := temp_name E file) in *.
  assert (Hload :
    FileProcessor.load_file E tmp (stored tmp content w)
    = (Raise (Exception ("文件不存在: " +:+ tmp)), stored tmp content w)).
  { unfold FileProcessor.load_file, bind.
    rewrite (exists_unseen E tmp failure _ Hstat). reflexivity. }
  assert (Hanalyse :
    Api.analyse E file tmp (stored tmp content w)
    = (Raise (HTTPException 422 (JString "无法加载文件内容")),
       stored tmp content w)).
  { unfold Api.analyse, bind.
    rewrite (chat_load_file_run E tmp (stored tmp content w) s Hchat), Hload.
    reflexivity. }
  unfold try_finally, Api.http_errors, try_except. rewrite Hanalyse.
  cbn [is_HTTPException]. unfold raise at 1.
  by rewrite (remove_temp_file_unseen E (stored tmp content w) tmp failure).
Qed.

(** An instance: an operating system on which [os.stat] always fails. The
    chat object has loaded nothing and the temporary file is left behind. *)
Lemma stat_failure_is_a_422_witness :
  let E := Reference.externals (Reference.answers abc_output)
             stat_always_fails in
  Api.extract_document_sections E notes_upload Reference.idle_world
  = (Raise (HTTPException 422 (JString "无法加载文件内容")),
     mkWorld {[ "/tmp/tmpk3v9x2ab.txt" := "# A" ]}
       (Some (mkSession None None)) [] (Some "/tmp/tmpk3v9x2ab.txt"))
  ∧ fs (stored "/tmp/tmpk3v9x2ab.txt" "# A" Reference.idle_world)
      !! "/tmp/tmpk3v9x2ab.txt" = Some "# A".
Proof.
  cbv zeta.
  apply (stat_failure_is_a_422
           (Reference.externals (Reference.answers abc_output)
              stat_always_fails)
           notes_upload "# A" Reference.idle_world
           (OSError, "/tmp/tmpk3v9x2ab.txt")).
  - repeat split; try reflexivity.
    + by eexists.
    + vm_compute. apply list_elem_of_In. left. reflexivity.
  - reflexivity.
Defined.
